(** * ResellPut AI market assistant: agents, fallback pricing and moderation

    A shallow embedding of the two agents of the repository
    ([agents/base_agent.py], [agents/price_suggestor.py],
    [agents/chat_moderator.py]) with the parts of [utils/data_processor.py]
    and [utils/llm_client.py] they call, followed by the properties of the
    specification that were checked against it.

    Conventions of the embedding.
    - A Python dictionary with string keys is a [gmap string value]; JSON-like
      Python values are the inductive [value].
    - Python floats are idealised as exact rationals ([Q]); [int(x)] is
      truncation toward zero.  Rounding error, overflow, infinities and NaN
      of binary floating point are therefore outside the model, except for
      the NaN that [Series.std] returns for fewer than two rows.
    - A Python exception is a constructor of [exn]; code that may raise lives
      in the error monad [raises], and [try ... except Exception] is [catch].
    - Text is a [string] of 8-bit characters, read as ASCII.
    - What the interpreter and its libraries supply ([json.loads], [str],
      f-string rendering, the square root inside [Series.std], [float ** float]
      at a fractional exponent) and the loaded dataset are the fields of
      [World]; what the outside does during one [process] call (the replies of
      the generation gateway, the elapsed wall-clock time, the UUID drawn) are
      the fields of [Call]. *)

From Stdlib Require Import QArith Qround Qabs Qpower ZArith String Ascii List Lia Lqa Bool.
From stdpp Require Import gmap strings list fin_maps.

Set Warnings "-register-all".
Open Scope string_scope.

(** ** Python values *)

Inductive value : Type :=
| VNull
| VBool (b : bool)
| VInt (z : Z)
| VFloat (q : Q)
| VStr (s : string)
| VList (l : list value)
| VDict (m : gmap string value).

(** ** Exceptions and the error monad *)

Inductive exn : Type :=
| KeyError (key : string)
| TypeError (msg : string)
| ValueError (msg : string)
| JSONDecodeError
| Exception (msg : string).

(** [str(e)] for an exception.  The text of interpreter-raised errors is
    representative; the text of errors raised by the repository is literal. *)
Definition str_of_exn (e : exn) : string :=
  match e with
  | KeyError k => "'" ++ k ++ "'"
  | TypeError m => m
  | ValueError m => m
  | JSONDecodeError => "Expecting value"
  | Exception m => m
  end.

Inductive raises (A : Type) : Type :=
| Ok (a : A)
| Raise (e : exn).
Arguments Ok {A} a.
Arguments Raise {A} e.

Global Instance raises_ret : MRet raises := fun A a => Ok a.

Global Instance raises_bind : MBind raises := fun A B k c =>
  match c with
  | Ok a => k a
  | Raise e => Raise e
  end.

(** [try: c except Exception as e: h e] *)
Definition catch {A} (c : raises A) (h : exn -> raises A) : raises A :=
  match c with
  | Ok a => Ok a
  | Raise e => h e
  end.

Definition raised {A} (r : raises A) : bool :=
  match r with Ok _ => false | Raise _ => true end.

(** ** Numbers *)

(** [isinstance(v, (int, float))]; [bool] is a subclass of [int]. *)
Definition is_number (v : value) : bool :=
  match v with
  | VBool _ | VInt _ | VFloat _ => true
  | _ => false
  end.

(** The numeric value of a number. *)
Definition num (v : value) : option Q :=
  match v with
  | VBool b => Some (if b then 1 else 0)%Q
  | VInt z => Some (inject_Z z)
  | VFloat q => Some q
  | _ => None
  end.

(** A number used in float arithmetic or an ordering comparison with a
    number; anything else raises [TypeError]. *)
Definition as_number (v : value) : raises Q :=
  match num v with
  | Some q => Ok q
  | None => Raise (TypeError "unsupported operand type(s)")
  end.

(** [int(x)] on a float: truncation toward zero. *)
Definition py_int (q : Q) : Z := Z.quot (Qnum q) (Z.pos (Qden q)).

Definition Qltb (a b : Q) : bool := negb (Qle_bool b a).

(** Truthiness of a value ([if v], [all(...)]). *)
Definition truthy (v : value) : bool :=
  match v with
  | VNull => false
  | VBool b => b
  | VInt z => negb (z =? 0)%Z
  | VFloat q => negb (Qeq_bool q 0)
  | VStr s => negb (String.eqb s EmptyString)
  | VList l => match l with [] => false | _ => true end
  | VDict m => negb (bool_decide (m = ∅))
  end.

(** Lists and dictionaries are unhashable: using one as a dictionary key
    raises [TypeError]. *)
Definition hashable (v : value) : bool :=
  match v with
  | VList _ | VDict _ => false
  | _ => true
  end.

(** [table.get(key, default)] on a table with string keys. *)
Definition table_get (table : gmap string Q) (key : value) (default : Q) : raises Q :=
  match key with
  | VStr s => Ok (match table !! s with Some q => q | None => default end)
  | VList _ | VDict _ => Raise (TypeError "unhashable type")
  | _ => Ok default
  end.

(** [key in table] on a table with string keys. *)
Definition table_mem (table : gmap string Q) (key : value) : raises bool :=
  match key with
  | VStr s => Ok (bool_decide (is_Some (table !! s)))
  | VList _ | VDict _ => Raise (TypeError "unhashable type")
  | _ => Ok false
  end.

(** [v in [s1, s2, ...]] for a list of string literals. *)
Definition in_strs (v : value) (l : list string) : bool :=
  match v with
  | VStr s => existsb (String.eqb s) l
  | _ => false
  end.

(** [data[key]] *)
Definition getitem (data : gmap string value) (key : string) : raises value :=
  match data !! key with
  | Some v => Ok v
  | None => Raise (KeyError key)
  end.

(** ** Text *)

Definition is_digit (c : ascii) : bool :=
  let n := nat_of_ascii c in (48 <=? n)%nat && (n <=? 57)%nat.

Definition is_upper (c : ascii) : bool :=
  let n := nat_of_ascii c in (65 <=? n)%nat && (n <=? 90)%nat.

Definition is_lower (c : ascii) : bool :=
  let n := nat_of_ascii c in (97 <=? n)%nat && (n <=? 122)%nat.

(** [\s] and the characters removed by [str.strip()]. *)
Definition is_space (c : ascii) : bool :=
  let n := nat_of_ascii c in
  ((9 <=? n)%nat && (n <=? 13)%nat) || ((28 <=? n)%nat && (n <=? 32)%nat).

(** [\w] *)
Definition is_word (c : ascii) : bool :=
  is_digit c || is_upper c || is_lower c || Ascii.eqb c "_"%char.

Definition lower_char (c : ascii) : ascii :=
  if is_upper c then ascii_of_nat (nat_of_ascii c + 32) else c.

(** [s.lower()] *)
Fixpoint lower (s : string) : string :=
  match s with
  | EmptyString => EmptyString
  | String c s' => String (lower_char c) (lower s')
  end.

(** [needle in hay] on strings. *)
Fixpoint contains (needle hay : string) : bool :=
  String.prefix needle hay ||
  match hay with
  | EmptyString => false
  | String _ hay' => contains needle hay'
  end.

Fixpoint lstrip (s : string) : string :=
  match s with
  | String c s' => if is_space c then lstrip s' else s
  | EmptyString => EmptyString
  end.

Fixpoint rstrip (s : string) : string :=
  match s with
  | EmptyString => EmptyString
  | String c s' =>
      match rstrip s' with
      | EmptyString => if is_space c then EmptyString else String c EmptyString
      | t => String c t
      end
  end.

(** [s.strip()] *)
Definition strip (s : string) : string := rstrip (lstrip s).

(** [s.endswith(suffix)] *)
Definition endswith (s suffix : string) : bool :=
  let n := String.length s in
  let k := String.length suffix in
  (k <=? n)%nat && String.eqb (substring (n - k) k s) suffix.

Definition drop_prefix (k : nat) (s : string) : string :=
  substring k (String.length s - k) s.

Definition drop_suffix (k : nat) (s : string) : string :=
  substring 0 (String.length s - k) s.

(** ** Regular expressions

    The fragment of [re] used by the phone patterns: character classes,
    the word boundary, concatenation, the greedy option and bounded
    repetition.  [rmatch r prev s k] matches [r] at the head of [s], [prev]
    being the character before it, and hands the rest to [k]. *)

Inductive regex : Type :=
| Chr (p : ascii -> bool)
| Bnd
| Cat (r1 r2 : regex)
| Opt (r : regex)
| Rep (n : nat) (r : regex).

Definition is_word_at (c : option ascii) : bool :=
  match c with Some a => is_word a | None => false end.

Fixpoint rmatch (r : regex) (prev : option ascii) (s : list ascii)
    (k : option ascii -> list ascii -> bool) : bool :=
  match r with
  | Chr p =>
      match s with
      | c :: s' => p c && k (Some c) s'
      | [] => false
      end
  | Bnd => xorb (is_word_at prev) (is_word_at (head s)) && k prev s
  | Cat r1 r2 => rmatch r1 prev s (fun prev' s' => rmatch r2 prev' s' k)
  | Opt r1 => rmatch r1 prev s k || k prev s
  | Rep n r1 =>
      (fix rep (n : nat) (prev : option ascii) (s : list ascii) : bool :=
         match n with
         | O => k prev s
         | S n' => rmatch r1 prev s (fun prev' s' => rep n' prev' s')
         end) n prev s
  end.

Fixpoint search_from (r : regex) (prev : option ascii) (s : list ascii) : bool :=
  rmatch r prev s (fun _ _ => true) ||
  match s with
  | [] => false
  | c :: s' => search_from r (Some c) s'
  end.

(** [re.search(r, s)] is a match. *)
Definition re_search (r : regex) (s : string) : bool :=
  search_from r None (list_ascii_of_string s).

(** [re.sub(r'[^...]', '', s)] for a negated character class: keep the
    characters of the class. *)
Fixpoint re_keep (p : ascii -> bool) (s : string) : string :=
  match s with
  | EmptyString => EmptyString
  | String c s' => if p c then String c (re_keep p s') else re_keep p s'
  end.

Fixpoint cats (rs : list regex) : regex :=
  match rs with
  | [] => Rep 0 Bnd
  | [r] => r
  | r :: rs' => Cat r (cats rs')
  end.

Definition lit (c : ascii) : regex := Chr (Ascii.eqb c).
Definition digits (n : nat) : regex := Rep n (Chr is_digit).
(** [[\s-]] *)
Definition sep : regex := Chr (fun c => is_space c || Ascii.eqb c "-"%char).

(** ** The outside world *)

(** A row of the marketplace dataset after [_clean_data]. *)
Record Listing : Type := {
  l_title : string;
  l_category : string;
  l_brand : string;
  l_condition : string;
  l_age_months : Q;
  l_asking_price : Q;
  l_location : string
}.

Record World : Type := {
  (** [DataProcessor.load_data()]: the cleaned data frame, loaded once. *)
  df : list Listing;
  (** [json.loads]; [None] is [json.JSONDecodeError]. *)
  json_loads : string -> option value;
  (** [str(v)] *)
  py_str : value -> string;
  (** rendering of an f-string: the template and the values of its fields *)
  fmt : string -> list value -> string;
  (** [x ** y] on floats when [y] is not a whole number *)
  libm_pow : Q -> Q -> Q;
  (** the square root taken by [Series.std] *)
  libm_sqrt : Q -> Q
}.

(** A prompt is a fixed template and the values substituted into it. *)
Inductive Prompt : Type :=
| PricePrompt (item : list value) (market : list value)
| PriceFallbackPrompt (item : list value)
| ModerationPrompt (message : string) (context : value)
    (phone_detected abusive_detected external_platform_detected : bool).

Record Call : Type := {
  (** [llm_client.generate(prompt)] at the given attempt of this call *)
  generate : nat -> Prompt -> raises string;
  (** [time.time() - start_time] *)
  elapsed : Q;
  (** [str(uuid.uuid4())] *)
  uuid4 : string
}.

(** ** utils/llm_client.py *)

Module BaseLLMClient.

(** Index of the first [c] in [s]. *)
Fixpoint find_first (c : ascii) (s : string) : option nat :=
  match s with
  | EmptyString => None
  | String a s' =>
      if Ascii.eqb a c then Some O
      else match find_first c s' with Some i => Some (S i) | None => None end
  end.

(** Index of the last [c] in [s]. *)
Fixpoint find_last (c : ascii) (s : string) : option nat :=
  match s with
  | EmptyString => None
  | String a s' =>
      match find_last c s' with
      | Some i => Some (S i)
      | None => if Ascii.eqb a c then Some O else None
      end
  end.

(** [re.search(r'\{.*\}', response, re.DOTALL)]: greedy, from the first
    opening brace to the last closing brace after it. *)
Definition json_match (response : string) : option string :=
  match find_first "{"%char response with
  | None => None
  | Some i =>
      let rest := substring i (String.length response - i) response in
      match find_last "}"%char rest with
      | None => None
      | Some j => Some (substring 0 (S j) rest)
      end
  end.

Definition extract_json (response : string) : string :=
  match json_match response with
  | Some m => m
  | None =>
      let response := strip response in
      let response :=
        if String.prefix "```json" response then drop_prefix 7 response else response in
      let response :=
        if String.prefix "```" response then drop_prefix 3 response else response in
      let response :=
        if endswith response "```" then drop_suffix 3 response else response in
      strip response
  end.

End BaseLLMClient.

(** ** utils/data_processor.py *)

Module DataProcessor.

(** [series == v] on a column of strings: element-wise against a scalar;
    against a list, element-wise when the lengths agree and [ValueError]
    otherwise. *)
Definition cell_eq (cell : string) (v : value) : bool :=
  match v with VStr s => String.eqb cell s | _ => false end.

Fixpoint cells_eq (col : list string) (l : list value) : list bool :=
  match col, l with
  | c :: col', v :: l' => cell_eq c v :: cells_eq col' l'
  | _, _ => []
  end.

Definition series_eq (col : list string) (v : value) : raises (list bool) :=
  match v with
  | VList l =>
      if (length l =? length col)%nat then Ok (cells_eq col l)
      else Raise (ValueError "Lengths must match to compare")
  | _ => Ok (map (fun c => cell_eq c v) col)
  end.

(** [frame[mask]] *)
Fixpoint select (frame : list Listing) (mask : list bool) : list Listing :=
  match frame, mask with
  | r :: frame', b :: mask' =>
      if b then r :: select frame' mask' else select frame' mask'
  | _, _ => []
  end.

(** [df[df['category'] == category]] *)
Definition by_category (frame : list Listing) (category : value) : raises (list Listing) :=
  m ← series_eq (map l_category frame) category;
  Ok (select frame m).

(** [df[(df['category'] == category) & (df['brand'] == brand)]] *)
Definition by_category_brand (frame : list Listing) (category brand : value)
    : raises (list Listing) :=
  mc ← series_eq (map l_category frame) category;
  mb ← series_eq (map l_brand frame) brand;
  Ok (select frame (zip_with andb mc mb)).

Definition empty (frame : list Listing) : bool :=
  match frame with [] => true | _ => false end.

(** [abs(similar['age_months'] - age_months) <= age_tolerance] *)
Definition within_age (age_months : Q) (age_tolerance : Z) (r : Listing) : bool :=
  Qle_bool (Qabs (l_age_months r - age_months)) (inject_Z age_tolerance).

(** [age_months] is subtracted from the column only when the category and
    brand filter kept a row; a non-number raises there. *)
Definition find_similar_products (w : World) (category brand age_months : value)
    (age_tolerance : Z) : raises (list Listing) :=
  (* Primary filter: same category and brand *)
  similar ← by_category_brand (df w) category brand;
  (* Secondary filter: age within tolerance *)
  similar ←
    (if negb (empty similar) && (0 <? age_tolerance)%Z then
       age ← as_number age_months;
       let age_filtered := List.filter (within_age age age_tolerance) similar in
       Ok (if negb (empty age_filtered) then age_filtered else similar)
     else Ok similar);
  (* If still no matches, try category only *)
  if empty similar then by_category (df w) category else Ok similar.

(** [series.mean()], [series.min()], [series.max()] on a non-empty series *)
Definition mean (xs : list Q) : Q :=
  (fold_right Qplus 0 xs / inject_Z (Z.of_nat (length xs)))%Q.

Definition series_min (xs : list Q) : Q :=
  match xs with
  | [] => 0%Q
  | x :: xs' => fold_left (fun m y => if Qltb y m then y else m) xs' x
  end.

Definition series_max (xs : list Q) : Q :=
  match xs with
  | [] => 0%Q
  | x :: xs' => fold_left (fun m y => if Qltb m y then y else m) xs' x
  end.

(** [series.std()]: the sample standard deviation; [None] is NaN, the value
    for fewer than two rows. *)
Definition std (w : World) (xs : list Q) : option Q :=
  match xs with
  | [] | [_] => None
  | _ =>
      let m := mean xs in
      let ss := fold_right Qplus 0%Q (map (fun x => ((x - m) * (x - m))%Q) xs) in
      Some (libm_sqrt w (ss / inject_Z (Z.of_nat (length xs) - 1))%Q)
  end.

Definition _create_fallback_data : list Listing :=
  [ {| l_title := "iPhone 12"; l_category := "Mobile"; l_brand := "Apple";
       l_condition := "Good"; l_age_months := 24; l_asking_price := 35000;
       l_location := "Mumbai" |};
    {| l_title := "Samsung Galaxy S21"; l_category := "Mobile"; l_brand := "Samsung";
       l_condition := "Like New"; l_age_months := 12; l_asking_price := 40000;
       l_location := "Delhi" |};
    {| l_title := "MacBook Air"; l_category := "Laptop"; l_brand := "Apple";
       l_condition := "Good"; l_age_months := 18; l_asking_price := 65000;
       l_location := "Bangalore" |};
    {| l_title := "Dell Inspiron"; l_category := "Laptop"; l_brand := "Dell";
       l_condition := "Fair"; l_age_months := 36; l_asking_price := 25000;
       l_location := "Chennai" |};
    {| l_title := "Sony Camera"; l_category := "Camera"; l_brand := "Sony";
       l_condition := "Like New"; l_age_months := 6; l_asking_price := 45000;
       l_location := "Pune" |} ].

End DataProcessor.

(** ** agents/base_agent.py *)

Module BaseAgent.

(** The statistics every agent instance owns. *)
Record Stats : Type := {
  execution_count : Z;
  success_count : Z;
  total_processing_time : Q
}.

(** [__init__] *)
Definition init : Stats :=
  {| execution_count := 0; success_count := 0; total_processing_time := 0 |}.

(** The abstract methods an agent implements. *)
Record Agent : Type := {
  class_name : string;
  _generate_prompt : World -> gmap string value -> raises Prompt;
  _validate_input : gmap string value -> raises unit;
  _parse_response : World -> string -> raises (gmap string value)
}.

(** [response and response.strip()] *)
Definition nonblank (response : string) : bool :=
  negb (String.eqb response EmptyString)
  && negb (String.eqb (strip response) EmptyString).

(** The loop of [_call_llm_with_retry] over the remaining attempts. *)
Fixpoint retry_loop (c : Call) (prompt : Prompt) (attempts : list nat)
    (last_exception : option exn) : raises string :=
  match attempts with
  | [] =>
      match last_exception with
      | Some e => Raise e
      | None => Raise (TypeError "exceptions must derive from BaseException")
      end
  | attempt :: rest =>
      let try_body :=
        response ← generate c attempt prompt;
        if nonblank response then Ok response
        else Raise (ValueError "Empty response from LLM") in
      match try_body with
      | Ok response => Ok response
      | Raise e => retry_loop c prompt rest (Some e)
      end
  end.

Definition _call_llm_with_retry (c : Call) (prompt : Prompt) : raises string :=
  retry_loop c prompt (seq 0 2) None.

Definition metadata (processing_time : Q) (agent_type : string) (execution_id : value)
    : value :=
  VDict (<["processing_time" := VFloat processing_time]>
         (<["agent_type" := VStr agent_type]>
          (<["execution_id" := execution_id]> ∅))).

(** The validate, prompt, generate and parse steps of the [try] body. *)
Definition pipeline (a : Agent) (w : World) (c : Call) (data : gmap string value)
    : raises (gmap string value) :=
  _validate_input a data;;
  prompt ← _generate_prompt a w data;
  response ← _call_llm_with_retry c prompt;
  _parse_response a w response.

Definition process (a : Agent) (w : World) (c : Call) (st : Stats)
    (data : gmap string value) : Stats * raises (gmap string value) :=
  let count := (execution_count st + 1)%Z in
  match pipeline a w c data with
  | Ok result =>
      let processing_time := elapsed c in
      ({| execution_count := count;
          success_count := success_count st + 1;
          total_processing_time := total_processing_time st + processing_time |},
       Ok (<["metadata" := metadata processing_time (class_name a) (VInt count)]> result))
  | Raise e =>
      let processing_time := elapsed c in
      ({| execution_count := count;
          success_count := success_count st;
          total_processing_time := total_processing_time st + processing_time |},
       Raise e)
  end.

Definition _update_stats (success : bool) (processing_time : Q) (st : Stats) : Stats :=
  {| execution_count := execution_count st + 1;
     success_count := if success then (success_count st + 1)%Z else success_count st;
     total_processing_time := total_processing_time st + processing_time |}.

Definition success_rate (st : Stats) : Q :=
  if (execution_count st =? 0)%Z then 0
  else inject_Z (success_count st) / inject_Z (execution_count st).

Definition avg_processing_time (st : Stats) : Q :=
  if (execution_count st =? 0)%Z then 0
  else total_processing_time st / inject_Z (execution_count st).

End BaseAgent.

(** ** Decoding and checking a reply *)

(** [field in result] for the decoded reply. *)
Definition py_contains (container : value) (field : string) : raises bool :=
  match container with
  | VDict m => Ok (bool_decide (is_Some (m !! field)))
  | VList l => Ok (existsb (fun v => DataProcessor.cell_eq field v) l)
  | VStr s => Ok (contains field s)
  | _ => Raise (TypeError "argument is not iterable")
  end.

(** [result[field]] for the decoded reply. *)
Definition py_getitem (container : value) (field : string) : raises value :=
  match container with
  | VDict m => getitem m field
  | VList _ | VStr _ => Raise (TypeError "indices must be integers")
  | _ => Raise (TypeError "object is not subscriptable")
  end.

(** [for field in required_fields: if field not in result: raise ...] *)
Fixpoint require_fields (fields : list string) (result : value) : raises unit :=
  match fields with
  | [] => Ok tt
  | field :: rest =>
      present ← py_contains result field;
      if (present : bool) then require_fields rest result
      else Raise (ValueError ("Missing required field in response: " ++ field))
  end.

(** [not isinstance(confidence, (int, float)) or confidence < 0 or
    confidence > 1] *)
Definition bad_confidence (confidence : value) : bool :=
  match num confidence with
  | Some q => Qltb q 0 || Qltb 1 q
  | None => true
  end.

(** The two [except] clauses shared by both [_parse_response] methods. *)
Definition parse_handlers {A} (e : exn) : raises A :=
  match e with
  | JSONDecodeError => Raise (ValueError "Invalid JSON response from LLM")
  | _ => Raise (ValueError ("Failed to parse response: " ++ str_of_exn e))
  end.

(** [json.loads(self.llm_client.extract_json(response))] *)
Definition decode (w : World) (response : string) : raises value :=
  match json_loads w (BaseLLMClient.extract_json response) with
  | Some v => Ok v
  | None => Raise JSONDecodeError
  end.

(** A dictionary literal with distinct keys. *)
Definition dict (items : list (string * value)) : gmap string value :=
  list_to_map items.

(** [v < bound] and [v > bound] against a float that may be NaN ([None]):
    a comparison with NaN is false, a non-number raises [TypeError]. *)
Definition py_lt (v : value) (bound : option Q) : raises bool :=
  a ← as_number v;
  Ok (match bound with Some b => Qltb a b | None => false end).

Definition py_gt (v : value) (bound : option Q) : raises bool :=
  a ← as_number v;
  Ok (match bound with Some b => Qltb b a | None => false end).

(** [base ** e] for a float [base]. *)
Definition py_pow (w : World) (base : Q) (e : value) : raises Q :=
  match e with
  | VBool b => Ok (Qpower base (if b then 1 else 0))
  | VInt z => Ok (Qpower base z)
  | VFloat q =>
      let r := Qred q in
      Ok (if (Z.pos (Qden r) =? 1)%Z then Qpower base (Qnum r) else libm_pow w base q)
  | _ => Raise (TypeError "unsupported operand type(s) for **")
  end.

(** [min(x, 1.0)] *)
Definition min1 (x : Q) : Q := if Qltb 1 x then 1 else x.

(** ** agents/price_suggestor.py *)

Module PriceSuggestorAgent.
Import BaseAgent.

(** Depreciation rates by category (per month) *)
Definition depreciation_rates : gmap string Q :=
  list_to_map [("Mobile", 0.05); ("Laptop", 0.04); ("Electronics", 0.03);
               ("Camera", 0.02); ("Fashion", 0.08); ("Furniture", 0.01)]%Q.

(** Brand value retention multipliers *)
Definition brand_multipliers : gmap string Q :=
  list_to_map [("Apple", 1.2); ("Samsung", 1.1); ("Sony", 1.1); ("Canon", 1.1);
               ("Nike", 1.05); ("Adidas", 1.05); ("default", 1.0)]%Q.

(** Location price adjustments (multipliers) *)
Definition location_multipliers : gmap string Q :=
  list_to_map [("Mumbai", 1.15); ("Delhi", 1.10); ("Bangalore", 1.12);
               ("Chennai", 1.08); ("Pune", 1.06); ("Hyderabad", 1.04);
               ("default", 1.0)]%Q.

Definition required_fields : list string :=
  ["title"; "category"; "brand"; "condition"; "age_months"; "asking_price"; "location"].

Fixpoint check_required (fields : list string) (data : gmap string value) : raises unit :=
  match fields with
  | [] => Ok tt
  | field :: rest =>
      match data !! field with
      | Some _ => check_required rest data
      | None => Raise (ValueError ("Missing required field: " ++ field))
      end
  end.

(** [not isinstance(v, (int, float)) or v < 0] *)
Definition not_nonnegative (v : value) : bool :=
  match num v with Some q => Qltb q 0 | None => true end.

(** [not isinstance(v, (int, float)) or v <= 0] *)
Definition not_positive (v : value) : bool :=
  match num v with Some q => Qle_bool q 0 | None => true end.

Definition valid_conditions : list string := ["Like New"; "Good"; "Fair"].

Definition _validate_input (data : gmap string value) : raises unit :=
  check_required required_fields data;;
  age_months ← getitem data "age_months";
  (if not_nonnegative age_months
   then Raise (ValueError "age_months must be a non-negative number") else Ok tt);;
  asking_price ← getitem data "asking_price";
  (if not_positive asking_price
   then Raise (ValueError "asking_price must be a positive number") else Ok tt);;
  condition ← getitem data "condition";
  if negb (in_strs condition valid_conditions)
  then Raise (ValueError "condition must be one of: Like New, Good, Fair")
  else Ok tt.

Record MarketAnalysis : Type := {
  similar_items : list Listing;
  avg_price : Q;
  min_price : Q;
  max_price : Q;
  depreciation_rate : Q;
  brand_multiplier : Q;
  location_multiplier : Q
}.

Definition prices (items : list Listing) : list Q := map l_asking_price items.

Definition _analyze_market (w : World) (data : gmap string value) : raises MarketAnalysis :=
  catch
    (category ← getitem data "category";
     brand ← getitem data "brand";
     age_months ← getitem data "age_months";
     similar_items ←
       DataProcessor.find_similar_products w category brand age_months 12;
     similar_items ←
       (if DataProcessor.empty similar_items
        then DataProcessor.by_category (df w) category   (* category-only matching *)
        else Ok similar_items);
     stats ←
       (if negb (DataProcessor.empty similar_items) then
          Ok (DataProcessor.mean (prices similar_items),
              DataProcessor.series_min (prices similar_items),
              DataProcessor.series_max (prices similar_items))
        else
          asking_price ← getitem data "asking_price";
          a ← as_number asking_price;
          Ok (a, a * 0.8, a * 1.2)%Q);
     rate ← table_get depreciation_rates category 0.03;
     brand_multiplier ← table_get brand_multipliers brand 1.0;
     location ← getitem data "location";
     location_multiplier ← table_get location_multipliers location 1.0;
     Ok {| similar_items := similar_items;
           avg_price := stats.1.1;
           min_price := stats.1.2;
           max_price := stats.2;
           depreciation_rate := rate * 100;
           brand_multiplier := brand_multiplier;
           location_multiplier := location_multiplier |})
    (fun _ =>
       (* Return fallback analysis *)
       asking_price ← getitem data "asking_price";
       a ← as_number asking_price;
       Ok {| similar_items := [];
             avg_price := a;
             min_price := a * 0.8;
             max_price := a * 1.2;
             depreciation_rate := 3.0;
             brand_multiplier := 1.0;
             location_multiplier := 1.0 |}).

(** The seven fields of the request quoted by both prompts. *)
Definition item_fields (data : gmap string value) : raises (list value) :=
  title ← getitem data "title";
  category ← getitem data "category";
  brand ← getitem data "brand";
  condition ← getitem data "condition";
  age_months ← getitem data "age_months";
  asking_price ← getitem data "asking_price";
  location ← getitem data "location";
  Ok [title; category; brand; condition; age_months; asking_price; location].

Definition _generate_fallback_prompt (data : gmap string value) : raises Prompt :=
  item ← item_fields data;
  Ok (PriceFallbackPrompt item).

Definition _generate_prompt (w : World) (data : gmap string value) : raises Prompt :=
  catch
    (market_analysis ← _analyze_market w data;
     item ← item_fields data;
     Ok (PricePrompt item
           [VInt (Z.of_nat (length (similar_items market_analysis)));
            VFloat (avg_price market_analysis);
            VFloat (min_price market_analysis);
            VFloat (max_price market_analysis);
            VFloat (depreciation_rate market_analysis);
            VFloat (location_multiplier market_analysis);
            VFloat (brand_multiplier market_analysis)]))
    (fun _ => _generate_fallback_prompt data).

Definition response_fields : list string :=
  ["suggested_price_range"; "reasoning"; "confidence"; "market_position";
   "recommendations"].

Definition valid_positions : list string :=
  ["underpriced"; "fairly_priced"; "overpriced"].

(** [not isinstance(price_range, dict) or 'min' not in price_range or
    'max' not in price_range] *)
Definition bad_price_range (price_range : value) : bool :=
  match price_range with
  | VDict m => negb (bool_decide (is_Some (m !! "min")))
               || negb (bool_decide (is_Some (m !! "max")))
  | _ => true
  end.

Definition _parse_response (w : World) (response : string)
    : raises (gmap string value) :=
  catch
    (result ← decode w response;
     require_fields response_fields result;;
     price_range ← py_getitem result "suggested_price_range";
     (if bad_price_range price_range
      then Raise (ValueError "Invalid price range structure") else Ok tt);;
     confidence ← py_getitem result "confidence";
     (if bad_confidence confidence
      then Raise (ValueError "Confidence must be between 0 and 1") else Ok tt);;
     market_position ← py_getitem result "market_position";
     (if negb (in_strs market_position valid_positions)
      then Raise (ValueError
             "market_position must be one of: underpriced, fairly_priced, overpriced")
      else Ok tt);;
     match result with
     | VDict m => Ok m
     | _ => Raise (TypeError "object is not subscriptable")
     end)
    parse_handlers.

(** [if cond: fraud_score += weight; fraud_indicators.append(text)] *)
Definition flag (cond : bool) (weight : Q) (text : string)
    (acc : Q * list string) : Q * list string :=
  if cond then ((acc.1 + weight)%Q, (acc.2 ++ [text])%list) else acc.

Definition risk_level (fraud_score : Q) : string :=
  if Qltb 0.6 fraud_score then "high"
  else if Qltb 0.3 fraud_score then "medium"
  else "low".

Definition fraud_report (fraud_score : Q) (fraud_indicators : list string)
    (level : string) : value :=
  VDict (dict [("fraud_score", VFloat fraud_score);
               ("fraud_indicators", VList (map VStr fraud_indicators));
               ("risk_level", VStr level)]).

(** The five triggering conditions, as the [try] body evaluates them. *)
Record Triggers : Type := {
  low_price : bool;        (* asking_price < avg_price - 2 * price_std *)
  high_price : bool;       (* asking_price > avg_price + 3 * price_std *)
  old_age : bool;          (* age_months > 120 *)
  premium_cheap : bool;    (* brand in [Apple, Samsung] and asking_price < 5000 *)
  like_new_old : bool      (* condition == 'Like New' and age_months > 36 *)
}.

Definition triggers (w : World) (data : gmap string value) : raises Triggers :=
  asking_price ← getitem data "asking_price";
  age_months ← getitem data "age_months";
  category ← getitem data "category";
  (* Load market data for comparison *)
  similar_items ← DataProcessor.by_category (df w) category;
  market ←
    (if negb (DataProcessor.empty similar_items) then
       let avg_price := DataProcessor.mean (prices similar_items) in
       let price_std := DataProcessor.std w (prices similar_items) in
       low ← py_lt asking_price ((fun s => avg_price - 2 * s)%Q <$> price_std);
       high ← py_gt asking_price ((fun s => avg_price + 3 * s)%Q <$> price_std);
       Ok (low, high)
     else Ok (false, false));
  old ← py_gt age_months (Some 120%Q);
  brand ← getitem data "brand";
  cheap ← (if in_strs brand ["Apple"; "Samsung"]
           then py_lt asking_price (Some 5000%Q) else Ok false);
  condition ← getitem data "condition";
  aged ← (if in_strs condition ["Like New"]
          then py_gt age_months (Some 36%Q) else Ok false);
  Ok {| low_price := market.1; high_price := market.2; old_age := old;
        premium_cheap := cheap; like_new_old := aged |}.

(** The accumulation of [fraud_score] and [fraud_indicators]. *)
Definition accumulate (t : Triggers) : Q * list string :=
  let acc := (0%Q, []) in
  let acc := flag (low_price t) 0.3
               "Suspiciously low price compared to market average" acc in
  let acc := flag (high_price t) 0.2
               "Significantly overpriced compared to market" acc in
  let acc := flag (old_age t) 0.1 "Unusually old product age" acc in
  let acc := flag (premium_cheap t) 0.4
               "Premium brand with suspiciously low price" acc in
  let acc := flag (like_new_old t) 0.2
               "'Like New' condition inconsistent with age" acc in
  acc.

Definition _detect_fraud_indicators (w : World) (data : gmap string value) : value :=
  match triggers w data with
  | Ok t =>
      let acc := accumulate t in
      fraud_report (min1 acc.1) acc.2 (risk_level acc.1)
  | Raise _ => fraud_report 0.0 [] "low"
  end.

Definition _calculate_confidence_score (data : gmap string value)
    (market_analysis : MarketAnalysis) : Q :=
  let try_body : raises Q :=
    let confidence := 0.5%Q in
    (* Market data availability *)
    let similar_items_count := length (similar_items market_analysis) in
    let confidence :=
      if (10 <? similar_items_count)%nat then (confidence + 0.3)%Q
      else if (5 <? similar_items_count)%nat then (confidence + 0.2)%Q
      else if (0 <? similar_items_count)%nat then (confidence + 0.1)%Q
      else confidence in
    (* Brand recognition *)
    brand ← getitem data "brand";
    known ← table_mem brand_multipliers brand;
    let confidence := if (known : bool) then (confidence + 0.1)%Q else confidence in
    (* Age reasonableness *)
    age_months ← getitem data "age_months";
    age ← as_number age_months;
    let confidence :=
      if Qle_bool 0 age && Qle_bool age 60 then (confidence + 0.1)%Q else confidence in
    (* Data completeness *)
    let complete :=
      forallb (fun field => match data !! field with
                            | Some v => truthy v
                            | None => false
                            end) required_fields in
    let confidence := if complete then (confidence + 0.1)%Q else confidence in
    Ok (min1 confidence) in
  match try_body with
  | Ok confidence => confidence
  | Raise _ => 0.5%Q
  end.

Definition price_range (lo hi : Z) : value :=
  VDict (dict [("min", VInt lo); ("max", VInt hi)]).

(** The result built by both [except] branches that fall back to a range
    around the asking price; they differ in their texts only. *)
Definition around_asking_price (c : Call) (data : gmap string value)
    (processing_time : Q) (reasoning recommendation agent_type : string)
    : raises (gmap string value) :=
  asking_price ← getitem data "asking_price";
  a ← as_number asking_price;
  Ok (dict [("suggested_price_range",
               price_range (py_int (a * 0.8)) (py_int (a * 1.2)));
            ("reasoning", VStr reasoning);
            ("confidence", VFloat 0.3);
            ("market_position", VStr "fairly_priced");
            ("recommendations", VList [VStr recommendation]);
            ("metadata", metadata processing_time agent_type (VStr (uuid4 c)))]).

Definition condition_multipliers : gmap string Q :=
  list_to_map [("Like New", 0.85); ("Good", 0.70); ("Fair", 0.55)]%Q.

Definition _generate_fallback_pricing (w : World) (c : Call)
    (data : gmap string value) (processing_time : Q) : raises (gmap string value) :=
  catch
    (asking_price ← getitem data "asking_price";
     age_months ← getitem data "age_months";
     category ← getitem data "category";
     condition ← getitem data "condition";
     (* Basic depreciation calculation *)
     depreciation_rate ← table_get depreciation_rates category 0.03;
     brand ← getitem data "brand";
     brand_multiplier ← table_get brand_multipliers brand 1.0;
     location ← getitem data "location";
     location_multiplier ← table_get location_multipliers location 1.0;
     condition_multiplier ← table_get condition_multipliers condition 0.70;
     (* Calculate depreciated value *)
     let monthly_depreciation := (1 - depreciation_rate)%Q in
     power ← py_pow w monthly_depreciation age_months;
     price ← as_number asking_price;
     let depreciated_value := (price * power)%Q in
     (* Apply condition and brand adjustments *)
     let estimated_value :=
       (depreciated_value * condition_multiplier * brand_multiplier
        * location_multiplier)%Q in
     (* Create price range (+-15%) *)
     let min_price := py_int (estimated_value * 0.85) in
     let max_price := py_int (estimated_value * 1.15) in
     (* Determine market position *)
     let market_position :=
       if Qltb price (inject_Z min_price) then "underpriced"
       else if Qltb (inject_Z max_price) price then "overpriced"
       else "fairly_priced" in
     Ok (dict
       [("suggested_price_range", price_range min_price max_price);
        ("reasoning", VStr (fmt w
           "Based on mathematical analysis: {condition} condition {category} from {data['brand']} with {age_months} months of age. Applied {depreciation_rate*100:.1f}% monthly depreciation, {condition_multiplier*100:.0f}% condition adjustment, and location factor for {data['location']}."
           [condition; category; brand; age_months;
            VFloat (depreciation_rate * 100); VFloat (condition_multiplier * 100);
            location]));
        ("confidence", VFloat 0.6);
        ("market_position", VStr market_position);
        ("recommendations", VList
           [VStr (fmt w "Consider pricing between ₹{min_price:,} - ₹{max_price:,}"
                    [VInt min_price; VInt max_price]);
            VStr "Note: This is a basic estimate. Full AI analysis temporarily unavailable."]);
        ("metadata",
           metadata processing_time "price_suggestor_fallback" (VStr (uuid4 c)))]))
    (fun _ =>
       (* Ultimate fallback *)
       around_asking_price c data processing_time
         "Unable to perform detailed analysis. Showing basic range around your asking price."
         "Please try again later for detailed AI analysis"
         "price_suggestor_emergency").

(** [max(result.get('confidence', 0), enhanced_confidence)]: the first
    argument unless the second is greater. *)
Definition max_confidence (result : gmap string value) (enhanced_confidence : Q)
    : raises value :=
  let parsed := default (VInt 0) (result !! "confidence") in
  a ← as_number parsed;
  Ok (if Qltb a enhanced_confidence then VFloat enhanced_confidence else parsed).

(** The [try] body of [process] up to the statistics update. *)
Definition full_analysis (w : World) (c : Call) (data : gmap string value)
    : raises (gmap string value) :=
  _validate_input data;;
  prompt ← _generate_prompt w data;
  response ← _call_llm_with_retry c prompt;
  result ← _parse_response w response;
  (* Add fraud detection *)
  let fraud_analysis := _detect_fraud_indicators w data in
  let result := <["fraud_analysis" := fraud_analysis]> result in
  (* Enhance confidence with market analysis *)
  market_analysis ← _analyze_market w data;
  let enhanced_confidence := _calculate_confidence_score data market_analysis in
  confidence ← max_confidence result enhanced_confidence;
  let result := <["confidence" := confidence]> result in
  (* Add metadata *)
  let processing_time := elapsed c in
  Ok (<["metadata" :=
          metadata processing_time "price_suggestor" (VStr (uuid4 c))]> result).

Definition process (w : World) (c : Call) (st : Stats) (data : gmap string value)
    : Stats * raises (gmap string value) :=
  match full_analysis w c data with
  | Ok result =>
      let processing_time := elapsed c in
      (_update_stats true processing_time st, Ok result)
  | Raise e =>
      let processing_time := elapsed c in
      let st := _update_stats false processing_time st in
      (* Always provide fallback pricing when LLM fails *)
      (st,
       catch (_generate_fallback_pricing w c data processing_time)
         (fun fallback_error =>
            (* Ultimate emergency fallback *)
            around_asking_price c data processing_time
              "AI analysis temporarily unavailable. Showing basic estimate based on your asking price."
              "Our AI systems are being optimized. Try again in a few minutes for detailed analysis."
              "emergency_fallback"))
  end.

End PriceSuggestorAgent.

(** ** agents/chat_moderator.py *)

Module ChatModeratorAgent.
Import BaseAgent.

(** Phone number patterns for Indian mobile numbers *)
Definition phone_patterns : list regex :=
  [ cats [Bnd; digits 10; Bnd];                                   (* \b\d{10}\b *)
    cats [Bnd; lit "+"; lit "9"; lit "1"; Opt sep; digits 10; Bnd];
                                                          (* \b\+91[\s-]?\d{10}\b *)
    cats [Bnd; lit "9"; lit "1"; Opt sep; digits 10; Bnd]; (* \b91[\s-]?\d{10}\b *)
    cats [Bnd; digits 3; sep; digits 3; sep; digits 4; Bnd];
                                                 (* \b\d{3}[\s-]\d{3}[\s-]\d{4}\b *)
    cats [Bnd; digits 5; sep; digits 5; Bnd] ].          (* \b\d{5}[\s-]\d{5}\b *)

(** Abusive/spam keywords *)
Definition abusive_keywords : list string :=
  ["fraud"; "scam"; "cheat"; "fake"; "stupid"; "idiot"; "fool";
   "urgent"; "hurry"; "cash only"; "advance payment"; "western union";
   "money gram"; "lottery"; "winner"; "congratulations"; "selected"].

(** External platform keywords *)
Definition external_platforms : list string :=
  ["whatsapp"; "telegram"; "facebook"; "instagram"; "email"; "gmail";
   "yahoo"; "hotmail"; "call me"; "text me"; "dm me"; "message me"].

Definition _validate_input (data : gmap string value) : raises unit :=
  match data !! "message" with
  | None => Raise (ValueError "Missing required field: message")
  | Some (VStr message) =>
      if (String.length (strip message) =? 0)%nat
      then Raise (ValueError "Message cannot be empty")
      else if (1000 <? String.length message)%nat
      then Raise (ValueError "Message too long (max 1000 characters)")
      else Ok tt
  | Some _ => Raise (ValueError "Message must be a string")
  end.

(** [[\d\+\s-]]: digits, +, spaces, dashes *)
Definition phone_char (c : ascii) : bool :=
  is_digit c || Ascii.eqb c "+"%char || is_space c || Ascii.eqb c "-"%char.

Definition _detect_phone_number (message : string) : bool :=
  let message_clean := re_keep phone_char message in
  existsb (fun pattern => re_search pattern message_clean) phone_patterns.

Definition _detect_abusive_content (message : string) : bool :=
  let message_lower := lower message in
  existsb (fun keyword => contains keyword message_lower) abusive_keywords.

Definition _detect_external_platforms (message : string) : bool :=
  let message_lower := lower message in
  existsb (fun platform => contains platform message_lower) external_platforms.

Definition _generate_prompt (w : World) (data : gmap string value) : raises Prompt :=
  message ← getitem data "message";
  let context := default (VStr "No additional context") (data !! "context") in
  match message with
  | VStr message =>
      (* Pre-analyze for obvious violations *)
      let phone_detected := _detect_phone_number message in
      let abusive_detected := _detect_abusive_content message in
      let external_platform_detected := _detect_external_platforms message in
      Ok (ModerationPrompt message context
            phone_detected abusive_detected external_platform_detected)
  | _ => Raise (TypeError "expected string or bytes-like object")
  end.

Definition response_fields : list string :=
  ["status"; "reason"; "confidence"; "detected_elements"; "severity";
   "action_recommended"].

Definition valid_statuses : list string :=
  ["safe"; "abusive"; "phone_detected"; "policy_violation"].
Definition valid_severities : list string := ["low"; "medium"; "high"].
Definition valid_actions : list string := ["none"; "warn"; "block"; "review"].

Definition _parse_response (w : World) (response : string)
    : raises (gmap string value) :=
  catch
    (result ← decode w response;
     require_fields response_fields result;;
     status ← py_getitem result "status";
     (if negb (in_strs status valid_statuses)
      then Raise (ValueError
             "status must be one of: safe, abusive, phone_detected, policy_violation")
      else Ok tt);;
     confidence ← py_getitem result "confidence";
     (if bad_confidence confidence
      then Raise (ValueError "Confidence must be between 0 and 1") else Ok tt);;
     severity ← py_getitem result "severity";
     (if negb (in_strs severity valid_severities)
      then Raise (ValueError "severity must be one of: low, medium, high")
      else Ok tt);;
     action ← py_getitem result "action_recommended";
     (if negb (in_strs action valid_actions)
      then Raise (ValueError
             "action_recommended must be one of: none, warn, block, review")
      else Ok tt);;
     (* Ensure detected_elements is a list *)
     detected ← py_getitem result "detected_elements";
     match result with
     | VDict m =>
         Ok (match detected with
             | VList _ => m
             | _ => <["detected_elements" := VList [VStr (py_str w detected)]]> m
             end)
     | _ => Raise (TypeError "object does not support item assignment")
     end)
    parse_handlers.

(** The agent implements the three abstract methods and inherits
    [BaseAgent.process]. *)
Definition agent : Agent :=
  {| class_name := "ChatModeratorAgent";
     BaseAgent._generate_prompt := _generate_prompt;
     BaseAgent._validate_input := _validate_input;
     BaseAgent._parse_response := _parse_response |}.

Definition process : World -> Call -> Stats -> gmap string value
    -> Stats * raises (gmap string value) :=
  BaseAgent.process agent.

End ChatModeratorAgent.

(** ** Reading results and running an agent *)


(** [result['metadata'][key]] *)
Definition metadata_of (key : string) (result : gmap string value) : option value :=
  match result !! "metadata" with
  | Some (VDict m) => m !! key
  | _ => None
  end.

(** [report['fraud_score']] and [report['risk_level']] of a fraud report *)
Definition fraud_score_of (report : value) : Q :=
  match report with
  | VDict m => match m !! "fraud_score" with Some (VFloat q) => q | _ => 0 end
  | _ => 0
  end.






(** A sequence of [process] calls on one agent instance: the final
    statistics and what each call returned or raised. *)
Fixpoint run (step : Call -> BaseAgent.Stats -> gmap string value
                     -> BaseAgent.Stats * raises (gmap string value))
    (st : BaseAgent.Stats) (calls : list (Call * gmap string value))
    : BaseAgent.Stats * list (raises (gmap string value)) :=
  match calls with
  | [] => (st, [])
  | (c, data) :: rest =>
      let (st1, out) := step c st data in
      let (st2, outs) := run step st1 rest in
      (st2, out :: outs)
  end.

(** A call of an agent on the shared pipeline succeeded when it returned. *)
Definition returned (out : raises (gmap string value)) : bool := negb (raised out).

(** A call of the price agent succeeded when it returned the result of the
    full analysis rather than one of the fallback results. *)
Definition full_result (out : raises (gmap string value)) : bool :=
  match out with
  | Ok result => in_strs (default VNull (metadata_of "agent_type" result)) ["price_suggestor"]
  | Raise _ => false
  end.

Definition count (p : raises (gmap string value) -> bool)
    (outs : list (raises (gmap string value))) : Z :=
  Z.of_nat (length (List.filter p outs)).

(** The execution ids carried by the results of the calls that returned. *)
Fixpoint execution_ids (outs : list (raises (gmap string value))) : list value :=
  match outs with
  | [] => []
  | Ok result :: rest =>
      match metadata_of "execution_id" result with
      | Some v => v :: execution_ids rest
      | None => execution_ids rest
      end
  | Raise _ :: rest => execution_ids rest
  end.

(** ** The closed-form price of the specification *)

Module Spec.


(** A multiplier taken from a fixed table, or the default. *)
Definition from_table (table : gmap string Q) (default : Q) (key : option value) : Q :=
  match key with
  | Some (VStr s) => match table !! s with Some q => q | None => default end
  | _ => default
  end.

(** [base ^ age] for a numeric age. *)
Definition power (w : World) (base : Q) (age : value) : Q :=
  match py_pow w base age with Ok p => p | Raise _ => 0 end.

(** asking_price x (1 - rate)^age_months x condition_mult x brand_mult
    x location_mult *)
Definition estimated_value (w : World) (data : gmap string value) : Q :=
  let asking_price := default 0%Q (data !! "asking_price" ≫= num) in
  let rate := from_table PriceSuggestorAgent.depreciation_rates 0.03 (data !! "category") in
  let condition_mult :=
    from_table PriceSuggestorAgent.condition_multipliers 0.70 (data !! "condition") in
  let brand_mult := from_table PriceSuggestorAgent.brand_multipliers 1.0 (data !! "brand") in
  let location_mult :=
    from_table PriceSuggestorAgent.location_multipliers 1.0 (data !! "location") in
  (asking_price * power w (1 - rate) (default VNull (data !! "age_months"))
   * condition_mult * brand_mult * location_mult)%Q.



End Spec.

(** ** Concrete worlds, gateways and requests *)

Module Fixtures.

Definition dq : string := String "034"%char EmptyString.
Definition quoted (s : string) : string := dq ++ s ++ dq.

(** A reply of the gateway as JSON text, with the given range and
    confidence literals. *)
Definition reply_text (lo hi confidence : string) : string :=
  "{" ++ quoted "suggested_price_range" ++ ": {" ++ quoted "min" ++ ": " ++ lo
      ++ ", " ++ quoted "max" ++ ": " ++ hi ++ "}, "
      ++ quoted "reasoning" ++ ": " ++ quoted "Typical depreciation" ++ ", "
      ++ quoted "confidence" ++ ": " ++ confidence ++ ", "
      ++ quoted "market_position" ++ ": " ++ quoted "fairly_priced" ++ ", "
      ++ quoted "recommendations" ++ ": []}".

(** The value that JSON text denotes. *)
Definition reply_value (lo hi : Z) (confidence : Q) : value :=
  VDict (dict [("suggested_price_range", PriceSuggestorAgent.price_range lo hi);
               ("reasoning", VStr "Typical depreciation");
               ("confidence", VFloat confidence);
               ("market_position", VStr "fairly_priced");
               ("recommendations", VList [])]).

Definition good_reply : string := reply_text "15000" "18000" "0.1".
Definition inverted_reply : string := reply_text "200" "100" "0.75".

(** A moderation verdict as JSON text, and the value it denotes. *)
Definition safe_verdict : string :=
  "{" ++ quoted "status" ++ ": " ++ quoted "safe" ++ ", "
      ++ quoted "reason" ++ ": " ++ quoted "Normal product inquiry" ++ ", "
      ++ quoted "confidence" ++ ": 0.9, "
      ++ quoted "detected_elements" ++ ": [], "
      ++ quoted "severity" ++ ": " ++ quoted "low" ++ ", "
      ++ quoted "action_recommended" ++ ": " ++ quoted "none" ++ "}".

Definition safe_verdict_value : value :=
  VDict (dict [("status", VStr "safe");
               ("reason", VStr "Normal product inquiry");
               ("confidence", VFloat 0.9);
               ("detected_elements", VList []);
               ("severity", VStr "low");
               ("action_recommended", VStr "none")]).

(** A decoder that knows the three replies above and rejects everything
    else. *)
Definition demo_json_loads (text : string) : option value :=
  if String.eqb text good_reply then Some (reply_value 15000 18000 0.1)
  else if String.eqb text inverted_reply then Some (reply_value 200 100 0.75)
  else if String.eqb text safe_verdict then Some safe_verdict_value
  else None.

Definition demo_world : World :=
  {| df := DataProcessor._create_fallback_data;
     json_loads := demo_json_loads;
     py_str := fun _ => "value";
     fmt := fun template _ => template;
     libm_pow := fun _ _ => 1%Q;
     libm_sqrt := fun x => inject_Z (Z.sqrt (Qfloor x)) |}.

(** A gateway that raises on every call, one that answers with the good
    reply, one that answers with the inverted range, and one whose reply
    is not JSON. *)
Definition down : Call :=
  {| generate := fun _ _ => Raise (Exception "Groq API error: connection refused");
     elapsed := 0.5; uuid4 := "3f2b8c1e-7d4a-4e0b-9a56-0c1d2e3f4a5b" |}.

Definition answering (text : string) : Call :=
  {| generate := fun _ _ => Ok text;
     elapsed := 0.5; uuid4 := "9b1deb4d-3b7d-4bad-9bdd-2b0d7b3dcb6d" |}.

(** The pricing request of the specification's example; Kochi is in no
    location table. *)
Definition iphone : gmap string value :=
  dict [("title", VStr "iPhone 12"); ("category", VStr "Mobile");
        ("brand", VStr "Apple"); ("condition", VStr "Good");
        ("age_months", VInt 24); ("asking_price", VInt 35000);
        ("location", VStr "Kochi")].



Definition message (text : string) : gmap string value :=
  dict [("message", VStr text)].

End Fixtures.

(** The time spent in a sequence of calls. *)
Definition elapsed_total (calls : list (Call * gmap string value)) : Q :=
  fold_right (fun call acc => (elapsed call.1 + acc)%Q) 0%Q calls.

(** The statistics the specification promises after [n] successful and
    [m] failed calls on a fresh agent that took [total] seconds. *)
Definition tally (n m : Z) (total : Q) (st : BaseAgent.Stats) : Prop :=
  BaseAgent.execution_count st = (n + m)%Z /\
  BaseAgent.success_count st = n /\
  (BaseAgent.success_rate st ==
     if (n + m =? 0)%Z then 0 else inject_Z n / inject_Z (n + m))%Q /\
  (BaseAgent.avg_processing_time st ==
     if (n + m =? 0)%Z then 0 else total / inject_Z (n + m))%Q.

(** [success_count <= execution_count], both counters non-negative *)
Definition counters_ok (st : BaseAgent.Stats) : Prop :=
  (0 <= BaseAgent.success_count st <= BaseAgent.execution_count st)%Z.

(** A row has the requested category and brand; a row has the requested
    category. *)
Definition same_category_brand (category brand : string) (r : Listing) : bool :=
  String.eqb (l_category r) category && String.eqb (l_brand r) brand.

Definition same_category (category : string) (r : Listing) : bool :=
  String.eqb (l_category r) category.

(** The five triggering conditions of the fraud score, with the weights the
    specification lists for them. *)
Inductive Condition : Type :=
| LowPrice | HighPrice | OldAge | PremiumCheap | LikeNewOld.


Definition weight (k : Condition) : Q :=
  match k with
  | LowPrice => 0.3
  | HighPrice => 0.2
  | OldAge => 0.1
  | PremiumCheap => 0.4
  | LikeNewOld => 0.2
  end.


(** The fraud score and the risk level reported for a request. *)
Definition fraud_score (w : World) (data : gmap string value) : Q :=
  fraud_score_of (PriceSuggestorAgent._detect_fraud_indicators w data).


(** A step counts every call, adds its time, and counts as successes the
    calls that [p] accepts. *)
Definition counts (step : Call -> BaseAgent.Stats -> gmap string value
                          -> BaseAgent.Stats * raises (gmap string value))
    (p : raises (gmap string value) -> bool) : Prop :=
  forall c st data,
    BaseAgent.execution_count (step c st data).1 = (BaseAgent.execution_count st + 1)%Z /\
    BaseAgent.success_count (step c st data).1
    = (BaseAgent.success_count st + if p (step c st data).2 then 1 else 0)%Z /\
    BaseAgent.total_processing_time (step c st data).1
    = (BaseAgent.total_processing_time st + elapsed c)%Q.

(** ** Notions used by the further properties *)

(** The exception one attempt of [_call_llm_with_retry] ends with: the one
    the gateway raised, or [ValueError] for an empty or blank reply; [None]
    when the attempt succeeded. *)
Definition attempt_error (out : raises string) : option exn :=
  match out with
  | Raise e => Some e
  | Ok response =>
      if BaseAgent.nonblank response then None
      else Some (ValueError "Empty response from LLM")
  end.

(** Every character of the text is white space. *)
Fixpoint all_space (s : string) : bool :=
  match s with
  | EmptyString => true
  | String c s' => is_space c && all_space s'
  end.

(** The character does not occur in the text. *)
Fixpoint lacks (c : ascii) (s : string) : bool :=
  match s with
  | EmptyString => true
  | String a s' => negb (Ascii.eqb a c) && lacks c s'
  end.

(** No character of the text is a digit. *)
Fixpoint digit_free (s : string) : bool :=
  match s with
  | EmptyString => true
  | String c s' => negb (is_digit c) && digit_free s'
  end.

(** Further gateways and requests. *)
Module Scenarios.

(** A gateway whose first reply is blank and whose second is the good one. *)
Definition recovering : Call :=
  {| generate := fun attempt _ =>
       if (attempt =? 0)%nat then Ok "   " else Ok Fixtures.good_reply;
     elapsed := 0.5; uuid4 := "6fa459ea-ee8a-3ca4-894e-db77e160355e" |}.

(** A gateway whose every reply is blank. *)
Definition blank : Call :=
  {| generate := fun _ _ => Ok "  ";
     elapsed := 0.5; uuid4 := "16fd2706-8baf-433b-82eb-8c7fada847da" |}.

End Scenarios.

(** The required field is missing from the request. *)
Definition missing (data : gmap string value) (field : string) : bool :=
  match data !! field with None => true | Some _ => false end.

(** Number of decimal digits of a text, and the least number of digits a
    match of a pattern consumes. *)
Fixpoint count_digits (s : list ascii) : nat :=
  match s with
  | [] => 0
  | c :: s' => (if is_digit c then 1 else 0) + count_digits s'
  end.

Definition only_digits (p : ascii -> bool) : bool :=
  forallb (fun n => implb (p (ascii_of_nat n)) (is_digit (ascii_of_nat n))) (seq 0 256).

Fixpoint min_digits (r : regex) : nat :=
  match r with
  | Chr p => if only_digits p then 1 else 0
  | Bnd => 0
  | Cat r1 r2 => min_digits r1 + min_digits r2
  | Opt _ => 0
  | Rep n r1 => n * min_digits r1
  end.

(** [x ** y] on floats stays within [0, 1] for a base in (0, 1] and an
    exponent that is not negative. *)
Definition pow_unit (w : World) : Prop :=
  forall base e, (0 < base <= 1)%Q -> (0 <= e)%Q ->
    (0 <= libm_pow w base e <= 1)%Q.

(** [report['fraud_indicators']] *)
Definition fraud_indicators_of (report : value) : list value :=
  match report with
  | VDict m => match m !! "fraud_indicators" with Some (VList l) => l | _ => [] end
  | _ => []
  end.

(** ** The text of the prompts *)

(** A double quote, a line break, and a text given line by line. *)
Definition dquote : string := String "034"%char EmptyString.
Definition newline : string := String "010"%char EmptyString.
Definition text (lines : list string) : string := String.concat newline lines.

(** The f-strings of the three prompt methods, cut at their replacement
    fields: [moderation_k] is the literal text after the [k]-th field of
    [ChatModeratorAgent._generate_prompt], [pricing_k] that of
    [PriceSuggestorAgent._generate_prompt] and [fallback_k] that of
    [PriceSuggestorAgent._generate_fallback_prompt]. *)
Module PromptText.

Definition moderation_0 : string :=
  text
  [ "You are an expert content moderator for a trusted marketplace platform.";
    EmptyString;
    "MESSAGE TO ANALYZE: " ++ dquote ].

Definition moderation_1 : string :=  (* after {message} *)
  text
  [ dquote;
    EmptyString;
    "CONTEXT: " ].

Definition moderation_2 : string :=  (* after {context} *)
  text
  [ EmptyString;
    EmptyString;
    "PRE-ANALYSIS RESULTS:";
    "- Phone number detected: " ].

Definition moderation_3 : string :=  (* after {phone_detected} *)
  text
  [ EmptyString;
    "- Abusive content detected: " ].

Definition moderation_4 : string :=  (* after {abusive_detected} *)
  text
  [ EmptyString;
    "- External platform mentioned: " ].

Definition moderation_5 : string :=  (* after {external_platform_detected} *)
  text
  [ EmptyString;
    EmptyString;
    "MODERATION GUIDELINES:";
    EmptyString;
    "SAFE CONTENT:";
    "- Normal product inquiries";
    "- Price negotiations";
    "- Meetup arrangements (without personal details)";
    "- Product condition questions";
    "- Delivery and payment discussions";
    EmptyString;
    "PHONE NUMBER DETECTION:";
    "- Any 10-digit Indian mobile numbers";
    "- Numbers with country codes (+91, 91)";
    "- Numbers in any format (spaces, dashes, dots)";
    "- Even if numbers are disguised (o for 0, etc.)";
    EmptyString;
    "ABUSIVE/SPAM INDICATORS:";
    "- Offensive language or threats";
    "- Promotional content unrelated to the product";
    "- Repetitive messages";
    "- Requests for external communication";
    "- Suspicious urgent language";
    "- Fraud/scam attempts";
    EmptyString;
    "POLICY VIOLATIONS:";
    "- Asking for personal information";
    "- Attempting to bypass platform";
    "- Fraudulent behavior patterns";
    "- Requesting advance payments";
    "- Promoting external services";
    EmptyString;
    "Respond with ONLY this JSON structure:";
    "{";
    "    " ++ dquote ++ "status" ++ dquote ++ ": " ++ dquote ++ "<safe|abusive|phone_detected|policy_violation>" ++ dquote ++ ",";
    "    " ++ dquote ++ "reason" ++ dquote ++ ": " ++ dquote ++ "<specific_explanation>" ++ dquote ++ ",";
    "    " ++ dquote ++ "confidence" ++ dquote ++ ": <0.0_to_1.0>,";
    "    " ++ dquote ++ "detected_elements" ++ dquote ++ ": [" ++ dquote ++ "<specific_problematic_parts>" ++ dquote ++ "],";
    "    " ++ dquote ++ "severity" ++ dquote ++ ": " ++ dquote ++ "<low|medium|high>" ++ dquote ++ ",";
    "    " ++ dquote ++ "action_recommended" ++ dquote ++ ": " ++ dquote ++ "<none|warn|block|review>" ++ dquote;
    "}" ].

Definition pricing_0 : string :=
  text
  [ "You are an expert second-hand marketplace pricing analyst with 10+ years of experience.";
    EmptyString;
    "PRODUCT TO PRICE:";
    "- Item: " ].

Definition pricing_1 : string :=  (* after {data['title']} *)
  text
  [ EmptyString;
    "- Category: " ].

Definition pricing_2 : string :=  (* after {data['category']} *)
  text
  [ EmptyString;
    "- Brand: " ].

Definition pricing_3 : string :=  (* after {data['brand']} *)
  text
  [ EmptyString;
    "- Condition: " ].

Definition pricing_4 : string :=  (* after {data['condition']} *)
  text
  [ EmptyString;
    "- Age: " ].

Definition pricing_5 : string :=  (* after {data['age_months']} *)
  text
  [ " months";
    "- Current asking: ₹" ].

Definition pricing_6 : string :=  (* after {data['asking_price']} *)
  text
  [ EmptyString;
    "- Location: " ].

Definition pricing_7 : string :=  (* after {data['location']} *)
  text
  [ EmptyString;
    EmptyString;
    "MARKET INTELLIGENCE:";
    "- Similar items found: " ].

Definition pricing_8 : string :=  (* after {len(market_analysis['similar_items'])} *)
  text
  [ EmptyString;
    "- Average price: ₹" ].

Definition pricing_9 : string :=  (* after {market_analysis['avg_price']:.0f} *)
  text
  [ EmptyString;
    "- Price range: ₹" ].

Definition pricing_10 : string :=  (* after {market_analysis['min_price']:.0f} *)
  " - ₹".

Definition pricing_11 : string :=  (* after {market_analysis['max_price']:.0f} *)
  text
  [ EmptyString;
    "- Category depreciation rate: " ].

Definition pricing_12 : string :=  (* after {market_analysis['depreciation_rate']} *)
  text
  [ "%/month";
    "- Location multiplier: " ].

Definition pricing_13 : string :=  (* after {market_analysis['location_multiplier']:.2f} *)
  text
  [ EmptyString;
    "- Brand multiplier: " ].

Definition pricing_14 : string :=  (* after {market_analysis['brand_multiplier']:.2f} *)
  text
  [ EmptyString;
    EmptyString;
    "PRICING RULES:";
    "1. Like New: 10-20% depreciation from retail";
    "2. Good: 25-40% depreciation from retail";
    "3. Fair: 45-60% depreciation from retail";
    "4. Apply monthly depreciation based on age";
    "5. Consider brand value retention";
    "6. Factor in location premium/discount";
    EmptyString;
    "Based on this analysis, provide ONLY a JSON response with this exact structure:";
    "{";
    "    " ++ dquote ++ "suggested_price_range" ++ dquote ++ ": {";
    "        " ++ dquote ++ "min" ++ dquote ++ ": <minimum_fair_price>,";
    "        " ++ dquote ++ "max" ++ dquote ++ ": <maximum_fair_price>";
    "    },";
    "    " ++ dquote ++ "reasoning" ++ dquote ++ ": " ++ dquote ++ "<detailed_explanation_with_calculations>" ++ dquote ++ ",";
    "    " ++ dquote ++ "confidence" ++ dquote ++ ": <0.0_to_1.0>,";
    "    " ++ dquote ++ "market_position" ++ dquote ++ ": " ++ dquote ++ "<underpriced|fairly_priced|overpriced>" ++ dquote ++ ",";
    "    " ++ dquote ++ "recommendations" ++ dquote ++ ": [" ++ dquote ++ "<actionable_advice>" ++ dquote ++ "]";
    "}" ].

Definition fallback_0 : string :=
  text
  [ "You are an expert second-hand marketplace pricing analyst.";
    EmptyString;
    "PRODUCT TO PRICE:";
    "- Item: " ].

Definition fallback_1 : string :=  (* after {data['title']} *)
  text
  [ EmptyString;
    "- Category: " ].

Definition fallback_2 : string :=  (* after {data['category']} *)
  text
  [ EmptyString;
    "- Brand: " ].

Definition fallback_3 : string :=  (* after {data['brand']} *)
  text
  [ EmptyString;
    "- Condition: " ].

Definition fallback_4 : string :=  (* after {data['condition']} *)
  text
  [ EmptyString;
    "- Age: " ].

Definition fallback_5 : string :=  (* after {data['age_months']} *)
  text
  [ " months";
    "- Current asking: ₹" ].

Definition fallback_6 : string :=  (* after {data['asking_price']} *)
  text
  [ EmptyString;
    "- Location: " ].

Definition fallback_7 : string :=  (* after {data['location']} *)
  text
  [ EmptyString;
    EmptyString;
    "Analyze this product and provide fair pricing based on general market knowledge.";
    EmptyString;
    "Provide ONLY a JSON response with this exact structure:";
    "{";
    "    " ++ dquote ++ "suggested_price_range" ++ dquote ++ ": {";
    "        " ++ dquote ++ "min" ++ dquote ++ ": <minimum_fair_price>,";
    "        " ++ dquote ++ "max" ++ dquote ++ ": <maximum_fair_price>";
    "    },";
    "    " ++ dquote ++ "reasoning" ++ dquote ++ ": " ++ dquote ++ "<detailed_explanation>" ++ dquote ++ ",";
    "    " ++ dquote ++ "confidence" ++ dquote ++ ": <0.0_to_1.0>,";
    "    " ++ dquote ++ "market_position" ++ dquote ++ ": " ++ dquote ++ "<underpriced|fairly_priced|overpriced>" ++ dquote ++ ",";
    "    " ++ dquote ++ "recommendations" ++ dquote ++ ": [" ++ dquote ++ "<actionable_advice>" ++ dquote ++ "]";
    "}" ].

(** [str(b)] *)
Definition py_bool (b : bool) : string := if b then "True" else "False".

Definition moderation (w : World) (message : string) (context : value)
    (phone_detected abusive_detected external_platform_detected : bool) : string :=
  moderation_0 ++ message ++ moderation_1 ++ py_str w context
  ++ moderation_2 ++ py_bool phone_detected
  ++ moderation_3 ++ py_bool abusive_detected
  ++ moderation_4 ++ py_bool external_platform_detected
  ++ moderation_5.

(** The agent builds the two pricing prompts from the seven fields of the
    request and the seven figures of the market analysis; there is no
    prompt of another shape. *)
Definition pricing (w : World) (item market : list value) : string :=
  match item, market with
  | [title; category; brand; condition; age_months; asking_price; location],
    [similar_items; avg_price; min_price; max_price; depreciation_rate;
     location_multiplier; brand_multiplier] =>
      pricing_0 ++ py_str w title ++ pricing_1 ++ py_str w category
      ++ pricing_2 ++ py_str w brand ++ pricing_3 ++ py_str w condition
      ++ pricing_4 ++ py_str w age_months ++ pricing_5 ++ py_str w asking_price
      ++ pricing_6 ++ py_str w location ++ pricing_7 ++ py_str w similar_items
      ++ pricing_8 ++ fmt w "{:.0f}" [avg_price]
      ++ pricing_9 ++ fmt w "{:.0f}" [min_price]
      ++ pricing_10 ++ fmt w "{:.0f}" [max_price]
      ++ pricing_11 ++ py_str w depreciation_rate
      ++ pricing_12 ++ fmt w "{:.2f}" [location_multiplier]
      ++ pricing_13 ++ fmt w "{:.2f}" [brand_multiplier]
      ++ pricing_14
  | _, _ => EmptyString
  end.

Definition fallback (w : World) (item : list value) : string :=
  match item with
  | [title; category; brand; condition; age_months; asking_price; location] =>
      fallback_0 ++ py_str w title ++ fallback_1 ++ py_str w category
      ++ fallback_2 ++ py_str w brand ++ fallback_3 ++ py_str w condition
      ++ fallback_4 ++ py_str w age_months ++ fallback_5 ++ py_str w asking_price
      ++ fallback_6 ++ py_str w location ++ fallback_7
  | _ => EmptyString
  end.

End PromptText.

(** The string an agent hands to [llm_client.generate]. *)
Definition prompt_text (w : World) (prompt : Prompt) : string :=
  match prompt with
  | PricePrompt item market => PromptText.pricing w item market
  | PriceFallbackPrompt item => PromptText.fallback w item
  | ModerationPrompt message context phone_detected abusive_detected
      external_platform_detected =>
      PromptText.moderation w message context phone_detected abusive_detected
        external_platform_detected
  end.

(** ** utils/llm_client.py: the mock client *)

Module MockLLMClient.

Definition _generate_mock_price_response : string :=
  text
  [ "{";
    "            " ++ dquote ++ "suggested_price_range" ++ dquote ++ ": {";
    "                " ++ dquote ++ "min" ++ dquote ++ ": 15000,";
    "                " ++ dquote ++ "max" ++ dquote ++ ": 18000";
    "            },";
    "            " ++ dquote ++ "reasoning" ++ dquote ++ ": " ++ dquote ++ "Based on market analysis, this product shows typical depreciation for its category and age. Similar items in the market range from ₹15,000 to ₹18,000." ++ dquote ++ ",";
    "            " ++ dquote ++ "confidence" ++ dquote ++ ": 0.75,";
    "            " ++ dquote ++ "market_position" ++ dquote ++ ": " ++ dquote ++ "fairly_priced" ++ dquote ++ ",";
    "            " ++ dquote ++ "recommendations" ++ dquote ++ ": [";
    "                " ++ dquote ++ "Price is competitive for current market conditions" ++ dquote ++ ",";
    "                " ++ dquote ++ "Consider slight reduction if item doesn't sell within 2 weeks" ++ dquote;
    "            ]";
    "        }" ].

Definition _generate_mock_moderation_response : string :=
  text
  [ "{";
    "            " ++ dquote ++ "status" ++ dquote ++ ": " ++ dquote ++ "safe" ++ dquote ++ ",";
    "            " ++ dquote ++ "reason" ++ dquote ++ ": " ++ dquote ++ "Message contains normal product inquiry without policy violations" ++ dquote ++ ",";
    "            " ++ dquote ++ "confidence" ++ dquote ++ ": 0.9,";
    "            " ++ dquote ++ "detected_elements" ++ dquote ++ ": [],";
    "            " ++ dquote ++ "severity" ++ dquote ++ ": " ++ dquote ++ "low" ++ dquote ++ ",";
    "            " ++ dquote ++ "action_recommended" ++ dquote ++ ": " ++ dquote ++ "none" ++ dquote;
    "        }" ].

(** Generate mock response based on prompt content *)
Definition generate (prompt : string) : string :=
  if contains "price" (lower prompt) || contains "pricing" (lower prompt)
  then _generate_mock_price_response
  else if contains "moderate" (lower prompt) || contains "message" (lower prompt)
  then _generate_mock_moderation_response
  else "{" ++ dquote ++ "error" ++ dquote ++ ": " ++ dquote ++ "Unknown prompt type"
       ++ dquote ++ ", " ++ dquote ++ "confidence" ++ dquote ++ ": 0.5}".

(** The value of the mock price response as JSON. *)
Definition price_response_value : value :=
  VDict (dict
    [("suggested_price_range",
        VDict (dict [("min", VInt 15000); ("max", VInt 18000)]));
     ("reasoning", VStr "Based on market analysis, this product shows typical depreciation for its category and age. Similar items in the market range from ₹15,000 to ₹18,000.");
     ("confidence", VFloat 0.75);
     ("market_position", VStr "fairly_priced");
     ("recommendations",
        VList [VStr "Price is competitive for current market conditions";
               VStr "Consider slight reduction if item doesn't sell within 2 weeks"])]).

End MockLLMClient.

(** A call served by the mock client, the one [LLMClientFactory] creates
    when no API key is set: it never raises and sees the text of the
    prompt only. *)
Definition with_mock_client (w : World) (c : Call) : Call :=
  {| generate := fun _ prompt => Ok (MockLLMClient.generate (prompt_text w prompt));
     elapsed := elapsed c;
     uuid4 := uuid4 c |}.

(** [json.loads] reads the mock price response as the JSON it is. *)
Definition decodes_mock_price (w : World) : Prop :=
  json_loads w MockLLMClient._generate_mock_price_response
  = Some MockLLMClient.price_response_value.

(** ** utils/data_processor.py: category statistics *)

Module CategoryStats.

Fixpoint insert_sorted (x : Q) (xs : list Q) : list Q :=
  match xs with
  | [] => [x]
  | y :: ys => if Qle_bool x y then x :: xs else y :: insert_sorted x ys
  end.

Definition sort_values (xs : list Q) : list Q := fold_right insert_sorted [] xs.

(** [series.median()] on a non-empty series: the middle value of the sorted
    series, or the mean of the two middle values. *)
Definition median (xs : list Q) : Q :=
  let s := sort_values xs in
  let n := length s in
  if Nat.even n then ((nth (n / 2 - 1) s 0 + nth (n / 2) s 0) / 2)%Q
  else nth (n / 2) s 0%Q.

Definition get_category_stats (w : World) (category : value)
    : raises (gmap string value) :=
  category_data ← DataProcessor.by_category (df w) category;
  if DataProcessor.empty category_data then
    Ok (dict [("count", VInt 0); ("avg_price", VInt 0); ("median_price", VInt 0);
              ("min_price", VInt 0); ("max_price", VInt 0); ("avg_age", VInt 0)])
  else
    let asking_price := map l_asking_price category_data in
    Ok (dict [("count", VInt (Z.of_nat (length category_data)));
              ("avg_price", VFloat (DataProcessor.mean asking_price));
              ("median_price", VFloat (median asking_price));
              ("min_price", VFloat (DataProcessor.series_min asking_price));
              ("max_price", VFloat (DataProcessor.series_max asking_price));
              ("avg_age", VFloat (DataProcessor.mean (map l_age_months category_data)))]).

(** [stats[key]] as a number *)
Definition stat (key : string) (stats : gmap string value) : Q :=
  default 0%Q (stats !! key ≫= num).

End CategoryStats.

(** ** app.py *)

(** The routes are modelled for a request whose body is a JSON object; the
    two agents of the application are passed as their statistics. *)
Module App.
Import BaseAgent.

(** [jsonify(body), status] *)
Record Response : Type := {
  status : Z;
  body : gmap string value
}.

Definition error (code : Z) (message : string) : Response :=
  {| status := code; body := dict [("error", VStr message)] |}.

(** [except ValueError] catches [json.JSONDecodeError] too, its subclass. *)
Definition is_value_error (e : exn) : bool :=
  match e with
  | ValueError _ | JSONDecodeError => true
  | _ => false
  end.

(** The two [except] clauses of the single-request routes. *)
Definition handle (e : exn) : Response :=
  if is_value_error e then error 400 (str_of_exn e)
  else error 500 "Internal server error".

Definition answer (out : raises (gmap string value)) : Response :=
  match out with
  | Ok result =>
      {| status := 200;
         body := dict [("success", VBool true); ("result", VDict result)] |}
  | Raise e => handle e
  end.

Definition required_fields : list string :=
  ["title"; "category"; "brand"; "condition"; "age_months"; "asking_price"; "location"].

(** Price suggestion endpoint *)
Definition negotiate_price (w : World) (c : Call) (price_agent : Stats)
    (data : gmap string value) : Stats * Response :=
  (* Validate required fields *)
  match List.find (missing data) required_fields with
  | Some field => (price_agent, error 400 ("Missing required field: " ++ field))
  | None =>
      (* Process the price suggestion *)
      let out := PriceSuggestorAgent.process w c price_agent data in
      (out.1, answer out.2)
  end.

(** Chat moderation endpoint *)
Definition moderate_chat (w : World) (c : Call) (chat_agent : Stats)
    (data : gmap string value) : Stats * Response :=
  if missing data "message"
  then (chat_agent, error 400 "Missing required field: message")
  else
    let out := ChatModeratorAgent.process w c chat_agent data in
    (out.1, answer out.2).

(** [item['asking_price']] on an item that is not an object *)
Definition subscript_error (item : value) : exn :=
  match item with
  | VList _ | VStr _ => TypeError "indices must be integers"
  | _ => TypeError "object is not subscriptable"
  end.

(** [price_agent.process(item)] for an item of a batch.  On an item that is
    not an object the analysis fails, the failure is counted, and both
    fallbacks fail on [data['asking_price']]. *)
Definition price_item (w : World) (c : Call) (st : Stats) (item : value)
    : Stats * raises (gmap string value) :=
  match item with
  | VDict data => PriceSuggestorAgent.process w c st data
  | _ => (_update_stats false (elapsed c) st, Raise (subscript_error item))
  end.

(** [chat_agent.process(message_data)] for an item of a batch.  On an item
    that is not an object validation fails: on ['message' not in data], or
    on [data['message']] when a text or a list contains the word. *)
Definition chat_item (w : World) (c : Call) (st : Stats) (item : value)
    : Stats * raises (gmap string value) :=
  match item with
  | VDict data => ChatModeratorAgent.process w c st data
  | _ =>
      ({| execution_count := execution_count st + 1;
          success_count := success_count st;
          total_processing_time := total_processing_time st + elapsed c |},
       present ← py_contains item "message";
       if (present : bool) then Raise (subscript_error item)
       else Raise (ValueError "Missing required field: message"))
  end.

(** The loop of a batch route: one entry per item, in order, whether the
    agent returned or raised; [calls i] is what the gateway and the clock do
    during the [i]-th call. *)
Fixpoint batch_loop
    (step : Call -> Stats -> value -> Stats * raises (gmap string value))
    (calls : nat -> Call) (st : Stats) (i : nat) (items : list value)
    : Stats * list value :=
  match items with
  | [] => (st, [])
  | item :: rest =>
      let out := step (calls i) st item in
      let entry :=
        match out.2 with
        | Ok result =>
            dict [("index", VInt (Z.of_nat i)); ("success", VBool true);
                  ("result", VDict result)]
        | Raise e =>
            dict [("index", VInt (Z.of_nat i)); ("success", VBool false);
                  ("error", VStr (str_of_exn e))]
        end in
      let results := batch_loop step calls out.1 (S i) rest in
      (results.1, VDict entry :: results.2)
  end.

(** The two batch routes differ in the key of the array, in the text of the
    error and in the agent. *)
Definition batch (key invalid : string)
    (step : Call -> Stats -> value -> Stats * raises (gmap string value))
    (calls : nat -> Call) (st : Stats) (data : gmap string value)
    : Stats * Response :=
  match data !! key with
  | Some (VList items) =>
      let results := batch_loop step calls st 0 items in
      (results.1,
       {| status := 200;
          body := dict [("success", VBool true);
                        ("results", VList results.2);
                        ("total_processed", VInt (Z.of_nat (length results.2)))] |})
  | _ => (st, error 400 invalid)
  end.

(** Batch price suggestion endpoint *)
Definition batch_negotiate (w : World) :=
  batch "items" "Missing or invalid items array" (price_item w).

(** Batch moderation endpoint *)
Definition batch_moderate (w : World) :=
  batch "messages" "Missing or invalid messages array" (chat_item w).

(** The figures of one agent in the detailed statistics. *)
Definition agent_stats (agent : Stats) : value :=
  VDict (dict [("total_executions", VInt (execution_count agent));
               ("success_rate", VFloat (success_rate agent));
               ("avg_processing_time", VFloat (avg_processing_time agent));
               ("last_execution", VNull)]).

Definition overall_success_rate (price_agent chat_agent : Stats) : Q :=
  let total_executions := (execution_count price_agent + execution_count chat_agent)%Z in
  ((inject_Z (execution_count price_agent) * success_rate price_agent
    + inject_Z (execution_count chat_agent) * success_rate chat_agent)
   / inject_Z (Z.max total_executions 1))%Q.

(** Get detailed statistics for dashboard *)
Definition get_detailed_stats (price_agent chat_agent : Stats) : Response :=
  (* Calculate additional metrics *)
  let total_executions := (execution_count price_agent + execution_count chat_agent)%Z in
  let avg_response_time :=
    ((avg_processing_time price_agent + avg_processing_time chat_agent) / 2)%Q in
  {| status := 200;
     body := dict [("price_suggestor", agent_stats price_agent);
                   ("chat_moderator", agent_stats chat_agent);
                   ("overall",
                      VDict (dict [("total_executions", VInt total_executions);
                                   ("success_rate",
                                      VFloat (overall_success_rate price_agent chat_agent));
                                   ("avg_response_time", VFloat avg_response_time)]))] |}.

(** [entry[key]] of the [k]-th entry of a batch response *)
Definition entry_field (k : nat) (key : string) (response : Response) : option value :=
  match body response !! "results" with
  | Some (VList results) =>
      match results !! k with
      | Some (VDict entry) => entry !! key
      | _ => None
      end
  | _ => None
  end.

End App.

(** A world whose [json.loads] reads the mock price response, and nothing
    else. *)
Module MockScenario.

Definition world : World :=
  {| df := DataProcessor._create_fallback_data;
     json_loads := fun text =>
       if String.eqb text MockLLMClient._generate_mock_price_response
       then Some MockLLMClient.price_response_value else None;
     py_str := py_str Fixtures.demo_world;
     fmt := fmt Fixtures.demo_world;
     libm_pow := libm_pow Fixtures.demo_world;
     libm_sqrt := libm_sqrt Fixtures.demo_world |}.

End MockScenario.

(** The item of a batch is an object whose asking price is a number. *)
Definition has_price (item : value) : bool :=
  match item with
  | VDict data =>
      match data !! "asking_price" ≫= num with Some _ => true | None => false end
  | _ => false
  end.

(** The item of a batch is an object on which the moderation pipeline
    completes during the given call. *)
Definition moderated (w : World) (c : Call) (item : value) : bool :=
  match item with
  | VDict data => returned (BaseAgent.pipeline ChatModeratorAgent.agent w c data)
  | _ => false
  end.

(** The result of a call that returned. *)
Definition result_of (out : raises (gmap string value)) : gmap string value :=
  match out with
  | Ok result => result
  | Raise _ => ∅
  end.

(** * Properties *)

(** ** The error monad *)

(** Rewrite with the outcome of one step and run the bind it feeds. *)
Ltac run_step H := rewrite H; cbn [mbind raises_bind catch].

Lemma bind_Ok {A B} (c : raises A) (k : A -> raises B) (b : B) :
  c ≫= k = Ok b -> exists a, c = Ok a /\ k a = Ok b.
Proof. destruct c as [a|e]; simpl; [eauto | discriminate]. Qed.



(** ** Moderation pre-analysis *)

(** C9: the three detectors on the four messages of the specification. *)
Theorem moderation_pre_analysis_examples :
  ChatModeratorAgent._detect_phone_number "Call me at 9876543210" = true /\
  ChatModeratorAgent._detect_abusive_content
    "This is a scam, hurry and pay advance" = true /\
  ChatModeratorAgent._detect_external_platforms "DM me on whatsapp" = true /\
  ChatModeratorAgent._detect_phone_number "Is this still available?" = false /\
  ChatModeratorAgent._detect_abusive_content "Is this still available?" = false /\
  ChatModeratorAgent._detect_external_platforms "Is this still available?" = false.
Proof. repeat split; vm_compute; reflexivity. Qed.

(** ** The price agent outside its validated inputs *)






(** ** The shared pipeline: metadata and statistics *)

Lemma metadata_of_insert (key : string) (result : gmap string value)
    (processing_time : Q) (agent_type : string) (execution_id : value) :
  metadata_of key
    (<["metadata" := BaseAgent.metadata processing_time agent_type execution_id]> result)
  = (<["processing_time" := VFloat processing_time]>
     (<["agent_type" := VStr agent_type]>
      (<["execution_id" := execution_id]> ∅)) : gmap string value) !! key.
Proof. unfold metadata_of. rewrite lookup_insert_eq. reflexivity. Qed.

Lemma base_process_count (a : BaseAgent.Agent) (w : World) (c : Call)
    (st : BaseAgent.Stats) (data : gmap string value) :
  BaseAgent.execution_count (BaseAgent.process a w c st data).1
  = (BaseAgent.execution_count st + 1)%Z.
Proof. unfold BaseAgent.process. destruct (BaseAgent.pipeline a w c data); reflexivity. Qed.

Lemma base_process_success (a : BaseAgent.Agent) (w : World) (c : Call)
    (st : BaseAgent.Stats) (data : gmap string value) :
  BaseAgent.success_count (BaseAgent.process a w c st data).1
  = (BaseAgent.success_count st
     + if returned (BaseAgent.process a w c st data).2 then 1 else 0)%Z.
Proof.
  unfold BaseAgent.process.
  destruct (BaseAgent.pipeline a w c data); simpl; lia.
Qed.

Lemma base_process_id (a : BaseAgent.Agent) (w : World) (c : Call)
    (st : BaseAgent.Stats) (data result : gmap string value) :
  (BaseAgent.process a w c st data).2 = Ok result ->
  metadata_of "execution_id" result
  = Some (VInt (BaseAgent.execution_count (BaseAgent.process a w c st data).1)).
Proof.
  unfold BaseAgent.process.
  destruct (BaseAgent.pipeline a w c data) as [r|e]; simpl; [|discriminate].
  intros [= <-]. rewrite metadata_of_insert. reflexivity.
Qed.

Section Runs.

Variable step : Call -> BaseAgent.Stats -> gmap string value
                -> BaseAgent.Stats * raises (gmap string value).
Variable p : raises (gmap string value) -> bool.
Hypothesis Hstep : counts step p.

Lemma run_cons (st : BaseAgent.Stats) (c : Call) (data : gmap string value)
    (rest : list (Call * gmap string value)) :
  run step st ((c, data) :: rest)
  = ((run step (step c st data).1 rest).1,
     (step c st data).2 :: (run step (step c st data).1 rest).2).
Proof.
  simpl. destruct (step c st data) as [st1 out]; simpl.
  destruct (run step st1 rest); reflexivity.
Qed.

Lemma run_length (st : BaseAgent.Stats) (calls : list (Call * gmap string value)) :
  length (run step st calls).2 = length calls.
Proof.
  revert st. induction calls as [|[c data] rest IH]; intros st; [reflexivity|].
  rewrite run_cons. simpl. now rewrite IH.
Qed.

Lemma count_split (outs : list (raises (gmap string value))) :
  (count p outs + count (fun out => negb (p out)) outs)%Z = Z.of_nat (length outs).
Proof.
  unfold count. induction outs as [|out outs IH]; [reflexivity|].
  simpl. destruct (p out); simpl length; lia.
Qed.

(** The counters after a run from any statistics. *)
Lemma run_counters (calls : list (Call * gmap string value)) :
  forall st,
    BaseAgent.execution_count (run step st calls).1
    = (BaseAgent.execution_count st + Z.of_nat (length calls))%Z /\
    BaseAgent.success_count (run step st calls).1
    = (BaseAgent.success_count st + count p (run step st calls).2)%Z /\
    (BaseAgent.total_processing_time (run step st calls).1
     == BaseAgent.total_processing_time st + elapsed_total calls)%Q.
Proof.
  induction calls as [|[c data] rest IH]; intros st.
  - unfold count. simpl. repeat split; try lia. ring.
  - rewrite run_cons. cbn [fst snd].
    destruct (IH (step c st data).1) as (IHe & IHs & IHt).
    destruct (Hstep c st data) as (He & Hs & Ht).
    rewrite IHe, IHs, IHt, He, Hs, Ht. unfold count. cbn [List.filter].
    repeat split.
    + cbn [length]. lia.
    + destruct (p (step c st data).2); cbn [length]; lia.
    + simpl. ring.
Qed.

Lemma tally_of_counters (n m : Z) (total : Q) (st : BaseAgent.Stats) :
  BaseAgent.execution_count st = (n + m)%Z ->
  BaseAgent.success_count st = n ->
  (BaseAgent.total_processing_time st == total)%Q ->
  tally n m total st.
Proof.
  intros He Hs Ht. unfold tally, BaseAgent.success_rate, BaseAgent.avg_processing_time.
  rewrite He, Hs. repeat split; try reflexivity.
  destruct (n + m =? 0)%Z; [reflexivity|]. now rewrite Ht.
Qed.

(** A fresh agent after a run: [n] calls accepted by [p], [m] rejected. *)
Lemma run_tally (calls : list (Call * gmap string value)) :
  tally (count p (run step BaseAgent.init calls).2)
        (count (fun out => negb (p out)) (run step BaseAgent.init calls).2)
        (elapsed_total calls)
        (run step BaseAgent.init calls).1.
Proof.
  destruct (run_counters calls BaseAgent.init) as (He & Hs & Ht).
  apply tally_of_counters.
  - rewrite He, count_split, run_length. reflexivity.
  - rewrite Hs. reflexivity.
  - rewrite Ht. simpl. ring.
Qed.

(** Every call keeps [success_count <= execution_count]. *)
Lemma step_counters_ok (c : Call) (st : BaseAgent.Stats) (data : gmap string value) :
  counters_ok st -> counters_ok (step c st data).1.
Proof.
  unfold counters_ok. destruct (Hstep c st data) as (-> & -> & _).
  destruct (p _); lia.
Qed.

End Runs.

Lemma base_process_step (a : BaseAgent.Agent) (w : World) :
  counts (BaseAgent.process a w) returned.
Proof.
  intros c st data.
  split; [apply base_process_count|]. split; [apply base_process_success|].
  unfold BaseAgent.process. destruct (BaseAgent.pipeline a w c data); reflexivity.
Qed.

Lemma full_analysis_agent_type (w : World) (c : Call) (data result : gmap string value) :
  PriceSuggestorAgent.full_analysis w c data = Ok result ->
  metadata_of "agent_type" result = Some (VStr "price_suggestor") /\
  metadata_of "execution_id" result = Some (VStr (uuid4 c)).
Proof.
  unfold PriceSuggestorAgent.full_analysis. intros H.
  repeat (apply bind_Ok in H; destruct H as (? & _ & H)).
  injection H as <-. rewrite !metadata_of_insert. split; reflexivity.
Qed.

Lemma around_asking_price_metadata (c : Call) (data result : gmap string value)
    (t : Q) (reasoning recommendation agent_type : string) :
  PriceSuggestorAgent.around_asking_price c data t reasoning recommendation agent_type
  = Ok result ->
  metadata_of "agent_type" result = Some (VStr agent_type) /\
  metadata_of "execution_id" result = Some (VStr (uuid4 c)).
Proof.
  unfold PriceSuggestorAgent.around_asking_price. intros H.
  repeat (apply bind_Ok in H; destruct H as (? & _ & H)).
  injection H as <-. split; reflexivity.
Qed.

Lemma fallback_pricing_metadata (w : World) (c : Call) (data result : gmap string value)
    (t : Q) :
  PriceSuggestorAgent._generate_fallback_pricing w c data t = Ok result ->
  (metadata_of "agent_type" result = Some (VStr "price_suggestor_fallback") \/
   metadata_of "agent_type" result = Some (VStr "price_suggestor_emergency")) /\
  metadata_of "execution_id" result = Some (VStr (uuid4 c)).
Proof.
  unfold PriceSuggestorAgent._generate_fallback_pricing, catch.
  match goal with |- context [match ?body with Ok _ => _ | Raise _ => _ end] =>
    destruct body as [r|e] eqn:Hbody end.
  - intros [= <-].
    repeat (apply bind_Ok in Hbody; destruct Hbody as (? & _ & Hbody)).
    injection Hbody as <-. split; [left|]; reflexivity.
  - intros H. apply around_asking_price_metadata in H as [Ht Hid].
    split; [right|]; assumption.
Qed.

(** What the price agent attaches to a result it returns. *)
Lemma price_process_metadata (w : World) (c : Call) (st : BaseAgent.Stats)
    (data result : gmap string value) :
  (PriceSuggestorAgent.process w c st data).2 = Ok result ->
  metadata_of "execution_id" result = Some (VStr (uuid4 c)) /\
  (metadata_of "agent_type" result = Some (VStr "price_suggestor") <->
   raised (PriceSuggestorAgent.full_analysis w c data) = false).
Proof.
  unfold PriceSuggestorAgent.process.
  destruct (PriceSuggestorAgent.full_analysis w c data) as [r|e] eqn:Hfull; simpl.
  - intros [= <-]. apply full_analysis_agent_type in Hfull as [Ht Hid].
    split; [assumption|]. split; [reflexivity|]. intros _. assumption.
  - unfold catch.
    destruct (PriceSuggestorAgent._generate_fallback_pricing w c data (elapsed c))
      as [r|e'] eqn:Hfb.
    + intros [= <-]. apply fallback_pricing_metadata in Hfb as [[Ht|Ht] Hid];
        (split; [assumption|]); rewrite Ht; split; discriminate.
    + intros H. apply around_asking_price_metadata in H as [Ht Hid].
      split; [assumption|]. rewrite Ht. split; discriminate.
Qed.

Lemma price_process_step (w : World) :
  counts (PriceSuggestorAgent.process w) full_result.
Proof.
  intros c st data. split; [|split].
  - unfold PriceSuggestorAgent.process.
    destruct (PriceSuggestorAgent.full_analysis w c data); reflexivity.
  - destruct (PriceSuggestorAgent.process w c st data).2 as [result|e] eqn:Hout.
    + apply price_process_metadata in Hout as [_ Htype].
      unfold full_result. revert Htype. unfold PriceSuggestorAgent.process.
      destruct (PriceSuggestorAgent.full_analysis w c data) as [r|e]; simpl; intros Htype.
      * rewrite (proj2 Htype eq_refl). simpl. reflexivity.
      * destruct (metadata_of "agent_type" result) as [v|] eqn:Hv; simpl; [|lia].
        destruct v as [| | | |s| |]; simpl; try lia.
        destruct (String.eqb_spec s "price_suggestor") as [->|Hne]; simpl; [|lia].
        destruct Htype as [Htype _]. specialize (Htype eq_refl). discriminate.
    + revert Hout. unfold PriceSuggestorAgent.process.
      destruct (PriceSuggestorAgent.full_analysis w c data); simpl; [discriminate|].
      intros _. lia.
  - unfold PriceSuggestorAgent.process.
    destruct (PriceSuggestorAgent.full_analysis w c data); reflexivity.
Qed.

(** ** Moderation surfaces every failure *)

(** C5: the moderation agent runs the shared [process]; a failure of
    validation, of generation after both attempts, or of parsing raises that
    very exception, and a result is returned only when every step
    succeeded. *)
Theorem moderation_failures_propagate (w : World) (c : Call) (st : BaseAgent.Stats)
    (data : gmap string value) (e : exn) :
  ChatModeratorAgent.process = BaseAgent.process ChatModeratorAgent.agent /\
  (ChatModeratorAgent._validate_input data = Raise e ->
   (ChatModeratorAgent.process w c st data).2 = Raise e) /\
  (forall prompt,
      ChatModeratorAgent._validate_input data = Ok tt ->
      ChatModeratorAgent._generate_prompt w data = Ok prompt ->
      BaseAgent._call_llm_with_retry c prompt = Raise e ->
      (ChatModeratorAgent.process w c st data).2 = Raise e) /\
  (forall prompt response,
      ChatModeratorAgent._validate_input data = Ok tt ->
      ChatModeratorAgent._generate_prompt w data = Ok prompt ->
      BaseAgent._call_llm_with_retry c prompt = Ok response ->
      ChatModeratorAgent._parse_response w response = Raise e ->
      (ChatModeratorAgent.process w c st data).2 = Raise e) /\
  (forall result,
      (ChatModeratorAgent.process w c st data).2 = Ok result ->
      exists prompt response verdict,
        ChatModeratorAgent._validate_input data = Ok tt /\
        ChatModeratorAgent._generate_prompt w data = Ok prompt /\
        BaseAgent._call_llm_with_retry c prompt = Ok response /\
        ChatModeratorAgent._parse_response w response = Ok verdict).
Proof.
  split; [reflexivity|].
  unfold ChatModeratorAgent.process, BaseAgent.process, BaseAgent.pipeline.
  cbn [BaseAgent._validate_input BaseAgent._generate_prompt BaseAgent._parse_response
       ChatModeratorAgent.agent].
  split; [|split; [|split]].
  - intros Hv. now run_step Hv.
  - intros prompt Hv Hp Hg. run_step Hv. run_step Hp. now run_step Hg.
  - intros prompt response Hv Hp Hg Hr.
    run_step Hv. run_step Hp. run_step Hg. now run_step Hr.
  - intros result.
    destruct (ChatModeratorAgent._validate_input data) as [[]|] eqn:Hv;
      cbn [mbind raises_bind]; [|discriminate].
    destruct (ChatModeratorAgent._generate_prompt w data) as [prompt|] eqn:Hp;
      cbn [mbind raises_bind]; [|discriminate].
    destruct (BaseAgent._call_llm_with_retry c prompt) as [response|] eqn:Hg;
      cbn [mbind raises_bind]; [|discriminate].
    destruct (ChatModeratorAgent._parse_response w response) as [verdict|] eqn:Hr;
      [|discriminate].
    intros _. exists prompt, response, verdict. auto.
Qed.

(** A blank message fails validation, a gateway that is down fails
    generation, and a reply that is not JSON fails parsing. *)
Lemma moderation_failures_propagate_witness :
  (ChatModeratorAgent.process Fixtures.demo_world Fixtures.down BaseAgent.init
     (Fixtures.message "   ")).2 = Raise (ValueError "Message cannot be empty") /\
  (ChatModeratorAgent.process Fixtures.demo_world Fixtures.down BaseAgent.init
     (Fixtures.message "Is this still available?")).2
  = Raise (Exception "Groq API error: connection refused") /\
  (ChatModeratorAgent.process Fixtures.demo_world (Fixtures.answering "I cannot help")
     BaseAgent.init (Fixtures.message "Is this still available?")).2
  = Raise (ValueError "Invalid JSON response from LLM").
Proof.
  split; [|split].
  - refine (proj1 (proj2 (moderation_failures_propagate Fixtures.demo_world
             Fixtures.down BaseAgent.init (Fixtures.message "   ")
             (ValueError "Message cannot be empty"))) _).
    reflexivity.
  - refine (proj1 (proj2 (proj2 (moderation_failures_propagate Fixtures.demo_world
             Fixtures.down BaseAgent.init (Fixtures.message "Is this still available?")
             (Exception "Groq API error: connection refused")))) _ _ _ _);
      reflexivity.
  - refine (proj1 (proj2 (proj2 (proj2 (moderation_failures_propagate
             Fixtures.demo_world (Fixtures.answering "I cannot help") BaseAgent.init
             (Fixtures.message "Is this still available?")
             (ValueError "Invalid JSON response from LLM"))))) _ _ _ _ _ _);
      reflexivity.
Defined.

(** ** Execution ids *)

Lemma run_ids_above (a : BaseAgent.Agent) (w : World)
    (calls : list (Call * gmap string value)) :
  forall (st : BaseAgent.Stats) (v : value),
    v ∈ execution_ids (run (BaseAgent.process a w) st calls).2 ->
    exists z, v = VInt z /\ (BaseAgent.execution_count st < z)%Z.
Proof.
  induction calls as [|[c data] rest IH]; intros st v.
  - simpl. intros H. inversion H.
  - rewrite run_cons. cbn [snd execution_ids].
    pose proof (base_process_count a w c st data) as Hcount.
    assert (Hrest : v ∈ execution_ids
                      (run (BaseAgent.process a w) (BaseAgent.process a w c st data).1 rest).2 ->
                    exists z, v = VInt z /\ (BaseAgent.execution_count st < z)%Z).
    { intros H. apply IH in H as (z & -> & Hz). exists z. split; [reflexivity|lia]. }
    destruct (BaseAgent.process a w c st data).2 as [result|e] eqn:Hout; [|exact Hrest].
    rewrite (base_process_id a w c st data result Hout).
    intros [->|H]%elem_of_cons; [|auto].
    eexists. split; [reflexivity|lia].
Qed.

Lemma run_ids_NoDup (a : BaseAgent.Agent) (w : World)
    (calls : list (Call * gmap string value)) :
  forall st : BaseAgent.Stats,
    NoDup (execution_ids (run (BaseAgent.process a w) st calls).2).
Proof.
  induction calls as [|[c data] rest IH]; intros st.
  - simpl. constructor.
  - rewrite run_cons. cbn [snd execution_ids].
    destruct (BaseAgent.process a w c st data).2 as [result|e] eqn:Hout; [|apply IH].
    rewrite (base_process_id a w c st data result Hout).
    apply NoDup_cons. split; [|apply IH].
    intros (z & [= <-] & Hz)%run_ids_above. lia.
Qed.

(** C7, as the code has it: on the shared pipeline a returned result
    carries the execution count of its call as [execution_id], so the ids of
    one agent instance never repeat; the price agent attaches a UUID string
    drawn for the call instead. *)
Theorem execution_id_of_results (w : World) :
  (forall a c st data result,
      (BaseAgent.process a w c st data).2 = Ok result ->
      metadata_of "execution_id" result
      = Some (VInt (BaseAgent.execution_count (BaseAgent.process a w c st data).1)) /\
      BaseAgent.execution_count (BaseAgent.process a w c st data).1
      = (BaseAgent.execution_count st + 1)%Z) /\
  (forall a st calls,
      NoDup (execution_ids (run (BaseAgent.process a w) st calls).2)) /\
  (forall c st data result,
      (PriceSuggestorAgent.process w c st data).2 = Ok result ->
      metadata_of "execution_id" result = Some (VStr (uuid4 c))).
Proof.
  split; [|split].
  - intros a c st data result H. split.
    + now apply base_process_id.
    + apply base_process_count.
  - intros a st calls. apply run_ids_NoDup.
  - intros c st data result H. now apply price_process_metadata in H as [Hid _].
Qed.

(** The first moderation call of a fresh agent carries id 1; a price result
    carries the UUID of its call. *)
Lemma execution_id_of_results_witness :
  (exists result,
      (ChatModeratorAgent.process Fixtures.demo_world
         (Fixtures.answering Fixtures.safe_verdict) BaseAgent.init
         (Fixtures.message "Is this still available?")).2 = Ok result /\
      metadata_of "execution_id" result = Some (VInt 1)) /\
  (exists result,
      (PriceSuggestorAgent.process Fixtures.demo_world Fixtures.down BaseAgent.init
         Fixtures.iphone).2 = Ok result /\
      metadata_of "execution_id" result
      = Some (VStr "3f2b8c1e-7d4a-4e0b-9a56-0c1d2e3f4a5b")).
Proof.
  split.
  - eexists. split; [vm_compute; reflexivity|].
    refine (proj1 (proj1 (execution_id_of_results Fixtures.demo_world)
                     ChatModeratorAgent.agent (Fixtures.answering Fixtures.safe_verdict)
                     BaseAgent.init (Fixtures.message "Is this still available?") _ _)).
    vm_compute. reflexivity.
  - eexists. split; [vm_compute; reflexivity|].
    refine (proj2 (proj2 (execution_id_of_results Fixtures.demo_world))
              Fixtures.down BaseAgent.init Fixtures.iphone _ _).
    vm_compute. reflexivity.
Defined.

(** C7, as stated, fails for the price agent: the id of a successful
    result is not the execution count. *)
Lemma price_execution_id_is_not_the_count :
  exists result,
    (PriceSuggestorAgent.process Fixtures.demo_world
       (Fixtures.answering Fixtures.good_reply) BaseAgent.init Fixtures.iphone).2
    = Ok result /\
    metadata_of "agent_type" result = Some (VStr "price_suggestor") /\
    metadata_of "execution_id" result
    <> Some (VInt (BaseAgent.execution_count
                     (PriceSuggestorAgent.process Fixtures.demo_world
                        (Fixtures.answering Fixtures.good_reply) BaseAgent.init
                        Fixtures.iphone).1)).
Proof.
  eexists. split; [vm_compute; reflexivity|]. split; [vm_compute; reflexivity|].
  vm_compute. discriminate.
Qed.

(** ** Statistics *)

(** C8: a fresh agent after any sequence of calls has counted all of them
    and, as successes, the ones that completed the pipeline (for the price
    agent: the ones that returned the full analysis); the rates follow, and
    every call of either agent keeps [success_count <= execution_count]. *)
Theorem statistics_after_calls (w : World) (calls : list (Call * gmap string value)) :
  (forall a,
      tally (count returned (run (BaseAgent.process a w) BaseAgent.init calls).2)
            (count (fun out => negb (returned out))
                   (run (BaseAgent.process a w) BaseAgent.init calls).2)
            (elapsed_total calls)
            (run (BaseAgent.process a w) BaseAgent.init calls).1) /\
  tally (count full_result (run (PriceSuggestorAgent.process w) BaseAgent.init calls).2)
        (count (fun out => negb (full_result out))
               (run (PriceSuggestorAgent.process w) BaseAgent.init calls).2)
        (elapsed_total calls)
        (run (PriceSuggestorAgent.process w) BaseAgent.init calls).1 /\
  (forall a c st data,
      counters_ok st -> counters_ok (BaseAgent.process a w c st data).1) /\
  (forall c st data,
      counters_ok st -> counters_ok (PriceSuggestorAgent.process w c st data).1).
Proof.
  split; [|split; [|split]].
  - intros a. apply run_tally, base_process_step.
  - apply run_tally, price_process_step.
  - intros a c st data. apply (step_counters_ok _ _ (base_process_step a w)).
  - intros c st data. apply (step_counters_ok _ _ (price_process_step w)).
Qed.

(** One failed call on each fresh agent keeps the counters in order. *)
Lemma statistics_after_calls_witness :
  counters_ok (BaseAgent.process ChatModeratorAgent.agent Fixtures.demo_world
                 Fixtures.down BaseAgent.init
                 (Fixtures.message "Is this still available?")).1 /\
  counters_ok (PriceSuggestorAgent.process Fixtures.demo_world Fixtures.down
                 BaseAgent.init Fixtures.iphone).1.
Proof.
  split.
  - refine (proj1 (proj2 (proj2 (statistics_after_calls Fixtures.demo_world [])))
              ChatModeratorAgent.agent Fixtures.down BaseAgent.init
              (Fixtures.message "Is this still available?") _).
    unfold counters_ok. simpl. lia.
  - refine (proj2 (proj2 (proj2 (statistics_after_calls Fixtures.demo_world [])))
              Fixtures.down BaseAgent.init Fixtures.iphone _).
    unfold counters_ok. simpl. lia.
Defined.

(** ** Market analysis *)

Lemma select_map_filter (f : Listing -> bool) (frame : list Listing) :
  DataProcessor.select frame (map f frame) = List.filter f frame.
Proof.
  induction frame as [|r frame IH]; [reflexivity|].
  simpl. rewrite IH. reflexivity.
Qed.

Lemma by_category_str (frame : list Listing) (category : string) :
  DataProcessor.by_category frame (VStr category)
  = Ok (List.filter (same_category category) frame).
Proof.
  unfold DataProcessor.by_category, DataProcessor.series_eq. cbn [mbind raises_bind].
  rewrite map_map. rewrite select_map_filter. reflexivity.
Qed.

Lemma zip_with_map_map {A} (f g : A -> bool) (l : list A) :
  zip_with andb (map f l) (map g l) = map (fun x => f x && g x) l.
Proof. induction l as [|x l IH]; [reflexivity|]. simpl. now rewrite IH. Qed.

Lemma by_category_brand_str (frame : list Listing) (category brand : string) :
  DataProcessor.by_category_brand frame (VStr category) (VStr brand)
  = Ok (List.filter (same_category_brand category brand) frame).
Proof.
  unfold DataProcessor.by_category_brand, DataProcessor.series_eq.
  cbn [mbind raises_bind]. rewrite !map_map, zip_with_map_map, select_map_filter.
  reflexivity.
Qed.

Lemma table_get_hashable (table : gmap string Q) (key : value) (default : Q) :
  hashable key = true -> exists q, table_get table key default = Ok q.
Proof. destruct key; simpl; intros H; try discriminate; eauto. Qed.

(** The rows [find_similar_products] keeps for a category and a brand that
    are strings and an age that is a number. *)
Lemma find_similar_products_str (w : World) (category brand : string)
    (age_months : value) (age : Q) :
  num age_months = Some age ->
  let both := List.filter (same_category_brand category brand) (df w) in
  let near := List.filter (DataProcessor.within_age age 12) both in
  DataProcessor.find_similar_products w (VStr category) (VStr brand) age_months 12
  = Ok (if negb (DataProcessor.empty near) then near
        else if negb (DataProcessor.empty both) then both
        else List.filter (same_category category) (df w)).
Proof.
  intros Hage both near. unfold DataProcessor.find_similar_products.
  rewrite by_category_brand_str. fold both. cbn [mbind raises_bind].
  unfold as_number. rewrite Hage. cbn [mbind raises_bind]. fold near.
  destruct both as [|r both'] eqn:Hboth.
  - simpl. apply by_category_str.
  - cbn [DataProcessor.empty negb andb Z.ltb Z.compare]. cbn [mbind raises_bind].
    destruct near as [|r' near']; reflexivity.
Qed.

Lemma same_category_brand_nil (category brand : string) (frame : list Listing) :
  List.filter (same_category category) frame = [] ->
  List.filter (same_category_brand category brand) frame = [].
Proof.
  induction frame as [|r frame IH]; [reflexivity|]. simpl.
  unfold same_category_brand, same_category in *.
  destruct (String.eqb (l_category r) category); simpl; [discriminate|]. exact IH.
Qed.

(** C6, as the code has it: the similar items are the rows of the requested
    category and brand that lie within 12 months of the requested age when
    there is such a row, all rows of that category and brand (whatever their
    age) when there is none, and the rows of the category when no row has the
    brand; with no row at all the bounds are 0.8 and 1.2 times the asking
    price around an average equal to it. *)
Theorem market_analysis_similar_items (w : World) (data : gmap string value)
    (category brand : string) (age_months asking_price location : value)
    (age price : Q) :
  data !! "category" = Some (VStr category) ->
  data !! "brand" = Some (VStr brand) ->
  data !! "age_months" = Some age_months -> num age_months = Some age ->
  data !! "asking_price" = Some asking_price -> num asking_price = Some price ->
  data !! "location" = Some location -> hashable location = true ->
  let both := List.filter (same_category_brand category brand) (df w) in
  let near := List.filter (DataProcessor.within_age age 12) both in
  let in_category := List.filter (same_category category) (df w) in
  exists market,
    PriceSuggestorAgent._analyze_market w data = Ok market /\
    PriceSuggestorAgent.similar_items market
    = (if negb (DataProcessor.empty near) then near
       else if negb (DataProcessor.empty both) then both
       else in_category) /\
    (near <> [] ->
     forall r, In r (PriceSuggestorAgent.similar_items market) ->
       same_category_brand category brand r = true /\
       (Qabs (l_age_months r - age) <= 12)%Q) /\
    (in_category = [] ->
     PriceSuggestorAgent.similar_items market = [] /\
     PriceSuggestorAgent.avg_price market = price /\
     PriceSuggestorAgent.min_price market = (price * 0.8)%Q /\
     PriceSuggestorAgent.max_price market = (price * 1.2)%Q).
Proof.
  intros Hcat Hbrand Hage Hnum Hask Hprice Hloc Hhash both near in_category.
  set (kept := if negb (DataProcessor.empty near) then near
               else if negb (DataProcessor.empty both) then both
               else in_category).
  assert (Hkept : kept = [] -> in_category = []).
  { subst kept. destruct near; [|discriminate]. destruct both; [|discriminate].
    trivial. }
  assert (Hnil : in_category = [] -> kept = []).
  { intros Hnone. subst kept near.
    assert (Hboth : both = []) by (apply same_category_brand_nil; exact Hnone).
    rewrite Hboth. simpl. exact Hnone. }
  destruct (table_get_hashable PriceSuggestorAgent.location_multipliers location 1.0 Hhash)
    as [lm Hlm].
  unfold PriceSuggestorAgent._analyze_market, getitem.
  rewrite Hcat, Hbrand, Hage. cbn [mbind raises_bind].
  rewrite (find_similar_products_str w category brand age_months age Hnum).
  fold both. fold near. fold in_category. fold kept. cbn [mbind raises_bind].
  rewrite by_category_str. fold in_category.
  destruct kept as [|r0 kept'] eqn:Hk.
  - (* no row at all *)
    rewrite (Hkept eq_refl).
    cbn [DataProcessor.empty negb mbind raises_bind]. rewrite Hask.
    cbn [mbind raises_bind]. unfold as_number. rewrite Hprice, Hloc.
    cbn [mbind raises_bind table_get]. rewrite Hlm.
    cbn [mbind raises_bind catch].
    eexists. split; [reflexivity|]. cbn.
    split; [reflexivity|]. split.
    + intros _ r [].
    + intros _. repeat split.
  - cbn [DataProcessor.empty negb mbind raises_bind]. rewrite Hloc.
    cbn [mbind raises_bind table_get]. rewrite Hlm.
    cbn [mbind raises_bind catch].
    eexists. split; [reflexivity|]. cbn [PriceSuggestorAgent.similar_items].
    split; [reflexivity|]. split.
    + intros Hnear r Hr. rewrite <- Hk in Hr. subst kept.
      destruct near as [|r1 near'] eqn:Hn; [congruence|].
      cbn [DataProcessor.empty negb] in Hr. rewrite <- Hn in Hr. subst near.
      apply filter_In in Hr as [Hr Hwithin]. subst both.
      apply filter_In in Hr as [_ Hr]. split; [exact Hr|].
      unfold DataProcessor.within_age in Hwithin.
      apply Qle_bool_iff in Hwithin. exact Hwithin.
    + intros Hnone. apply Hnil in Hnone. discriminate.
Qed.

(** For the 24 months old iPhone the fallback dataset has one row of the
    same category and brand, of the same age. *)
Lemma market_analysis_similar_items_witness :
  exists market,
    PriceSuggestorAgent._analyze_market Fixtures.demo_world Fixtures.iphone = Ok market /\
    map l_title (PriceSuggestorAgent.similar_items market) = ["iPhone 12"].
Proof.
  destruct (market_analysis_similar_items Fixtures.demo_world Fixtures.iphone
              "Mobile" "Apple" (VInt 24) (VInt 35000) (VStr "Kochi") 24 35000
              eq_refl eq_refl eq_refl eq_refl eq_refl eq_refl eq_refl eq_refl)
    as (market & Hmarket & Hitems & _).
  exists market. split; [exact Hmarket|]. rewrite Hitems. reflexivity.
Defined.

(** C6, as stated, fails: asked for a 60 months old Apple mobile, the
    analysis returns the 24 months old iPhone of the fallback dataset, a row
    of the requested category and brand that is 36 months away. *)
Lemma similar_item_outside_age_tolerance :
  exists market r,
    PriceSuggestorAgent._analyze_market Fixtures.demo_world
      (<["age_months" := VInt 60]> Fixtures.iphone) = Ok market /\
    In r (PriceSuggestorAgent.similar_items market) /\
    same_category_brand "Mobile" "Apple" r = true /\
    ~ (Qabs (l_age_months r - 60) <= 12)%Q.
Proof.
  eexists. eexists. split; [vm_compute; reflexivity|].
  split; [left; reflexivity|]. split; [reflexivity|].
  intros H. vm_compute in H. apply H. reflexivity.
Qed.

(** ** Fraud score *)










(** ** Arithmetic of the price range *)












(** ** Validated requests *)







(** ** The mathematical fallback *)



(** ** Confidence *)









(** ** The price agent on valid requests *)








(** ** The closed form of the fallback price *)







